(** * Storage key derivation of [@polkadot/metadata]

    A shallow embedding of
    [packages/metadata/src/decorate/storage/createFunction.ts] together with
    the byte helpers it imports, and the properties of the keys it derives. *)

From Stdlib Require Import ZArith List String Ascii Bool Lia.
From Stdlib Require Import Strings.Byte.
Import ListNotations.

Local Open Scope string_scope.
Local Open Scope list_scope.
Local Open Scope Z_scope.

(** ** Values thrown and returned *)

(** A JavaScript call either returns or throws an [Error] with a message. *)
Inductive result (A : Type) : Type :=
| Ok (a : A)
| Err (msg : string).

Arguments Ok {A} a.
Arguments Err {A} msg.

Definition bind {A B : Type} (r : result A) (k : A -> result B) : result B :=
  match r with
  | Ok a => k a
  | Err msg => Err msg
  end.

Notation "x <- r ;; k" := (bind r (fun x => k))
  (at level 61, r at next level, right associativity).

(** [assert(condition, message)] of [@polkadot/util]. *)
Definition assert (condition : bool) (message : string) : result unit :=
  if condition then Ok tt else Err message.

(** ** Bytes *)

(** A [Uint8Array]. *)
Definition U8a : Type := list byte.

Definition byte_of_Z (z : Z) : byte :=
  match Byte.of_N (Z.to_N (z mod 256)) with
  | Some b => b
  | None => x00
  end.

Definition Z_of_byte (b : byte) : Z := Z.of_N (Byte.to_N b).

Definition EMPTY_U8A : U8a := [].

(** [u8aConcat(...list)]. *)
Definition u8aConcat (u8as : list U8a) : U8a := List.concat u8as.

(** [bnToU8a(value, bitLength, true)]: [n] little-endian bytes. *)
Fixpoint le_bytes (n : nat) (z : Z) : U8a :=
  match n with
  | O => []
  | S n' => byte_of_Z z :: le_bytes n' (Z.shiftr z 8)
  end.

(** [u8aToBn(value, true)]: the little-endian number held by the bytes. *)
Fixpoint le_value (bs : U8a) : Z :=
  match bs with
  | [] => 0
  | b :: bs' => Z_of_byte b + 256 * le_value bs'
  end.

(** Bytes of a string the way [stringToU8a] gives them, for the 8-bit
    characters a Rocq string holds. *)
Definition stringToU8a (s : string) : U8a := list_byte_of_string s.

(** ** xxhash *)

Module XXH64.

Definition PRIME64_1 : Z := 11400714785074694791.
Definition PRIME64_2 : Z := 14029467366897019727.
Definition PRIME64_3 : Z := 1609587929392839161.
Definition PRIME64_4 : Z := 9650029242287828579.
Definition PRIME64_5 : Z := 2870177450012600261.

Definition wrap (x : Z) : Z := x mod 2 ^ 64.

Definition rotl (x : Z) (r : Z) : Z :=
  wrap (Z.lor (Z.shiftl x r) (Z.shiftr x (64 - r))).

Definition round (acc input : Z) : Z :=
  wrap (rotl (wrap (acc + input * PRIME64_2)) 31 * PRIME64_1).

Definition mergeRound (acc val : Z) : Z :=
  wrap (wrap (Z.lxor acc (round 0 val)) * PRIME64_1 + PRIME64_4).

Definition read (n : nat) (data : U8a) : Z := le_value (firstn n data).

(** The 32-byte stripes of a long input. *)
Fixpoint stripes (n : nat) (data : U8a) (v : Z * Z * Z * Z) : (Z * Z * Z * Z) * U8a :=
  match n with
  | O => (v, data)
  | S n' =>
      let '(v1, v2, v3, v4) := v in
      stripes n' (skipn 32 data)
        (round v1 (read 8 data),
         round v2 (read 8 (skipn 8 data)),
         round v3 (read 8 (skipn 16 data)),
         round v4 (read 8 (skipn 24 data)))
  end.

Fixpoint tail8 (n : nat) (data : U8a) (h : Z) : Z * U8a :=
  match n with
  | O => (h, data)
  | S n' =>
      let h1 := Z.lxor h (round 0 (read 8 data)) in
      tail8 n' (skipn 8 data) (wrap (rotl h1 27 * PRIME64_1 + PRIME64_4))
  end.

Fixpoint tail1 (data : U8a) (h : Z) : Z :=
  match data with
  | [] => h
  | b :: data' =>
      let h1 := Z.lxor h (wrap (Z_of_byte b * PRIME64_5)) in
      tail1 data' (wrap (rotl h1 11 * PRIME64_1))
  end.

Definition avalanche (h : Z) : Z :=
  let h1 := Z.lxor h (Z.shiftr h 33) in
  let h2 := wrap (h1 * PRIME64_2) in
  let h3 := Z.lxor h2 (Z.shiftr h2 29) in
  let h4 := wrap (h3 * PRIME64_3) in
  Z.lxor h4 (Z.shiftr h4 32).

Definition h64 (data : U8a) (seed : Z) : Z :=
  let len := List.length data in
  let '(h0, rest) :=
    if (32 <=? len)%nat
    then
      let '((v1, v2, v3, v4), rest) :=
        stripes (len / 32) data
          (wrap (seed + PRIME64_1 + PRIME64_2), wrap (seed + PRIME64_2),
           wrap seed, wrap (seed - PRIME64_1)) in
      let h := wrap (rotl v1 1 + rotl v2 7 + rotl v3 12 + rotl v4 18) in
      (mergeRound (mergeRound (mergeRound (mergeRound h v1) v2) v3) v4, rest)
    else (wrap (seed + PRIME64_5), data) in
  let h1 := wrap (h0 + Z.of_nat len) in
  let '(h2, rest8) := tail8 (List.length rest / 8) rest h1 in
  let '(h3, rest4) :=
    if (4 <=? List.length rest8)%nat
    then
      let k := Z.lxor h2 (wrap (read 4 rest8 * PRIME64_1)) in
      (wrap (rotl k 23 * PRIME64_2 + PRIME64_3), skipn 4 rest8)
    else (h2, rest8) in
  avalanche (tail1 rest4 h3).

End XXH64.

(** [xxhashAsU8a(data, bitLength)] of [@polkadot/util-crypto]: one 64-bit
    xxhash per seed [0 .. ceil(bitLength / 64) - 1], each written as eight
    little-endian bytes. *)
Fixpoint xxhash_seeds (data : U8a) (iterations : nat) (seed : Z) : U8a :=
  match iterations with
  | O => []
  | S n => le_bytes 8 (XXH64.h64 data seed) ++ xxhash_seeds data n (seed + 1)
  end.

Definition xxhashU8a (data : U8a) (bitLength : Z) : U8a :=
  xxhash_seeds data (Z.to_nat ((bitLength + 63) / 64)) 0.

Definition xxhashAsU8a (data : string) (bitLength : Z) : U8a :=
  xxhashU8a (stringToU8a data) bitLength.

(** ** Helpers of [@polkadot/util] *)

(** [compactToU8a(value)]: the SCALE compact encoding of a length. *)
Definition MAX_U8 : Z := 2 ^ (8 - 2) - 1.
Definition MAX_U16 : Z := 2 ^ (16 - 2) - 1.
Definition MAX_U32 : Z := 2 ^ (32 - 2) - 1.

(** The loop [while (u8a[length - 1] === 0) length--]. *)
Fixpoint trim_zeros (bs : U8a) : U8a :=
  match bs with
  | [] => []
  | b :: bs' =>
      match trim_zeros bs' with
      | [] => if Byte.eqb b x00 then [] else [b]
      | r => b :: r
      end
  end.

Definition compactToU8a (value : Z) : U8a :=
  if value <=? MAX_U8 then [byte_of_Z (Z.shiftl value 2)]
  else if value <=? MAX_U16 then le_bytes 2 (Z.shiftl value 2 + 1)
  else if value <=? MAX_U32 then le_bytes 4 (Z.shiftl value 2 + 2)
  else
    let u8a := trim_zeros (le_bytes (Z.to_nat ((Z.log2 value + 8) / 8)) value) in
    byte_of_Z (Z.shiftl (Z.of_nat (List.length u8a) - 4) 2 + 3) :: u8a.

(** [compactAddLength(input)]. *)
Definition compactAddLength (input : U8a) : U8a :=
  u8aConcat [compactToU8a (Z.of_nat (List.length input)); input].

(** [input.subarray(from, to)], clamped to the array. *)
Definition subarray (input : U8a) (from to : Z) : U8a :=
  firstn (Z.to_nat (to - from)) (skipn (Z.to_nat from) input).

(** [compactFromU8a(input)]: the offset of the payload and the decoded
    length. *)
Definition compactFromU8a (input : U8a) : Z * Z :=
  let first := match input with [] => 0 | b :: _ => Z_of_byte b end in
  let flag := Z.land first 3 in
  if flag =? 0 then (1, Z.shiftr first 2)
  else if flag =? 1 then (2, Z.shiftr (le_value (firstn 2 input)) 2)
  else if flag =? 2 then (4, Z.shiftr (le_value (firstn 4 input)) 2)
  else
    let length := Z.shiftr first 2 + 4 in
    let offset := 1 + length in
    (offset, le_value (subarray input 1 offset)).

(** [compactStripLength(input)]. *)
Definition compactStripLength (input : U8a) : Z * U8a :=
  let '(offset, length) := compactFromU8a input in
  let total := offset + length in
  (total, subarray input offset total).

Definition isHexDigit (c : ascii) : bool :=
  let n := N_of_ascii c in
  ((48 <=? n) && (n <=? 57) || (65 <=? n) && (n <=? 70)
   || (97 <=? n) && (n <=? 102))%N.

Definition hexDigit (c : ascii) : Z :=
  let n := Z.of_N (N_of_ascii c) in
  if n <=? 57 then n - 48 else if n <=? 70 then n - 55 else n - 87.

Fixpoint allHex (s : string) : bool :=
  match s with
  | EmptyString => true
  | String c s' => isHexDigit c && allHex s'
  end.

(** [isHex(value)]: [0x] followed by hex digits, of even length. *)
Definition isHex (value : string) : bool :=
  match value with
  | String "0" (String "x" digits) =>
      allHex digits && Nat.even (String.length digits)
  | _ => false
  end.

Fixpoint hexPairs (digits : string) : U8a :=
  match digits with
  | String hi (String lo rest) =>
      byte_of_Z (16 * hexDigit hi + hexDigit lo) :: hexPairs rest
  | _ => []
  end.

(** [hexToU8a(value)] on a value that [isHex] accepts. *)
Definition hexToU8a (value : string) : U8a :=
  match value with
  | String _ (String _ digits) => hexPairs digits
  | _ => []
  end.

(** [u8aToU8a(value)] at the type of [options.key]: an optional string. *)
Definition u8aToU8a (value : option string) : U8a :=
  match value with
  | None => []
  | Some EmptyString => []
  | Some s => if isHex s then hexToU8a s else stringToU8a s
  end.

Definition toLowerCase (c : ascii) : ascii :=
  let n := N_of_ascii c in
  if ((65 <=? n) && (n <=? 90))%N then ascii_of_N (n + 32) else c.

(** [stringLowerFirst(value)]. *)
Definition stringLowerFirst (value : string) : string :=
  match value with
  | EmptyString => EmptyString
  | String c rest => String (toLowerCase c) rest
  end.

(** ** JavaScript arguments *)

Set Warnings "-register-all".

(** What a caller can pass for [CreateArgType] or for the pair of a
    DoubleMap, nothing ([undefined]) included. *)
Inductive JsValue : Type :=
| JsUndefined
| JsNull
| JsBoolean (b : bool)
| JsNumber (n : Z)
| JsString (s : string)
| JsU8a (u : U8a)
| JsArray (elems : list JsValue).

Definition isUndefined (value : JsValue) : bool :=
  match value with JsUndefined => true | _ => false end.

Definition isNull (value : JsValue) : bool :=
  match value with JsNull => true | _ => false end.

Definition isArray (value : JsValue) : bool :=
  match value with JsArray _ => true | _ => false end.

(** [args[i]]; past the end of an array it is [undefined]. *)
Definition index (args : JsValue) (i : nat) : JsValue :=
  match args with
  | JsArray elems => nth i elems JsUndefined
  | _ => JsUndefined
  end.

(** ** Metadata *)

(** Modelled from the spec: the [StorageHasher] enum of
    [@polkadot/types/interfaces/metadata], which is not among the sources;
    the kinds are those of the data model's HasherKind. *)
Inductive StorageHasher : Type :=
| Identity
| Twox64
| Twox128
| Twox256
| Blake2_128
| Blake2_256
| Blake2_128Concat
| Twox64Concat.

Definition HasherFunction : Type := U8a -> U8a.

Module AsMap.
Record t : Type := {
  hasher : StorageHasher;
  key : string;
  value : string
}.
End AsMap.

Module AsDoubleMap.
Record t : Type := {
  hasher : StorageHasher;
  key1 : string;
  key2 : string;
  value : string;
  key2Hasher : StorageHasher
}.
End AsDoubleMap.

Inductive StorageEntryType : Type :=
| Plain (value : string)
| Map (asMap : AsMap.t)
| DoubleMap (asDoubleMap : AsDoubleMap.t).

Definition isMap (type : StorageEntryType) : bool :=
  match type with Map _ => true | _ => false end.

Definition isDoubleMap (type : StorageEntryType) : bool :=
  match type with DoubleMap _ => true | _ => false end.

Definition isPlain (type : StorageEntryType) : bool :=
  match type with Plain _ => true | _ => false end.

Record StorageEntryMetadataLatest : Type := {
  name : string;
  modifier : Z;
  type : StorageEntryType;
  fallback : U8a;
  documentation : list string
}.

Record CreateItemOptions : Type := {
  key : option string;
  skipHashing : option bool
}.

Record CreateItemFn : Type := {
  meta : StorageEntryMetadataLatest;
  method : string;
  prefix : string;
  section : string
}.

(** [options.skipHashing] used as a condition: absent is falsy. *)
Definition truthy (b : option bool) : bool :=
  match b with Some true => true | _ => false end.

(** ** Codec values *)

(** [new Raw(registry, u8a)]: the bytes, kept as they are. *)
Record Raw : Type := { raw_u8a : U8a }.

(** The function handed to [extendHeadMeta], with the [meta] attached to
    it there. *)
Record IterFn : Type := {
  iter_call : JsValue -> result Raw;
  iter_meta : StorageEntryMetadataLatest
}.

(** A [StorageKey]: a [Uint8Array] with the fields its constructor sets. *)
Record StorageKey : Type := {
  sk_u8a : U8a;
  sk_meta : option StorageEntryMetadataLatest;
  sk_method : string;
  sk_section : string
}.

Inductive StorageKeyInput : Type :=
| FromIterFn (fn : IterFn)
| FromRaw (raw : Raw).

(** Modelled from the spec: the [StorageKey] constructor behind
    [registry.createType('StorageKey', value, { method, section })];
    [primitive/StorageKey.ts] is not among the sources. The bytes of a [Raw]
    are taken as they are, a function is called without argument for them
    (the absent first key of 4.4) and brings its [meta], and the override
    gives [method] and [section]. *)
Definition createStorageKey (value : StorageKeyInput)
    (override : string * string) : result StorageKey :=
  match value with
  | FromIterFn fn =>
      raw <- iter_call fn JsUndefined ;;
      Ok {| sk_u8a := raw_u8a raw; sk_meta := Some (iter_meta fn);
            sk_method := fst override; sk_section := snd override |}
  | FromRaw raw =>
      Ok {| sk_u8a := raw_u8a raw; sk_meta := None;
            sk_method := fst override; sk_section := snd override |}
  end.

(** What [keyPrefix] returns: a [StorageKey] when [iterKey] made it, plain
    bytes otherwise. Both are [Uint8Array]s. *)
Inductive KeyPrefix : Type :=
| PrefixKey (k : StorageKey)
| PrefixU8a (u : U8a).

Definition keyPrefix_u8a (p : KeyPrefix) : U8a :=
  match p with
  | PrefixKey k => sk_u8a k
  | PrefixU8a u => u
  end.

(** [StorageEntry] of [packages/types/src/primitive/types.ts]: the callable
    with its attached fields. *)
Module StorageEntry.
Record t : Type := {
  call : JsValue -> result U8a;
  iterKey : option (JsValue -> result StorageKey);
  keyPrefix : JsValue -> result KeyPrefix;
  meta : StorageEntryMetadataLatest;
  method : string;
  prefix : string;
  section : string;
  toJSON : StorageEntryMetadataLatest * (string * string * string)
}.
End StorageEntry.

(** ** External services *)

(** The part of [Registry] that key derivation uses:
    [createType(type, value).toU8a()] and [createType(type).toHex()], the
    latter given as the bytes the hex string denotes. Both can throw. *)
Record Registry : Type := {
  createTypeU8a : string -> JsValue -> result U8a;
  createTypeHex : string -> result U8a
}.

(** [getHasher] of [./getHasher], which is not among the sources: from an
    optional hasher kind to the function that hashes an encoded key. *)
Class Hashers : Type := {
  getHasher : option StorageHasher -> HasherFunction
}.

(** ** createFunction.ts *)

Section CreateFunction.

Context `{Hashers}.

(** get the hashers, the base (and in the case of DoubleMap), the second
    key *)
Definition getHashers (itemFn : CreateItemFn)
  : HasherFunction * option HasherFunction :=
  match type (meta itemFn) with
  | DoubleMap asDoubleMap =>
      (getHasher (Some (AsDoubleMap.hasher asDoubleMap)),
       Some (getHasher (Some (AsDoubleMap.key2Hasher asDoubleMap))))
  | Map asMap => (getHasher (Some (AsMap.hasher asMap)), None)
  | Plain _ => (getHasher None, None)
  end.

(** create a base prefixed key *)
Definition createPrefixedKey (itemFn : CreateItemFn) : U8a :=
  u8aConcat [xxhashAsU8a (prefix itemFn) 128; xxhashAsU8a (method itemFn) 128].

(** create a key for a DoubleMap type; [name] is a [Text], which is never
    falsy, so [(name || 'unknown')] is [name]. *)
Definition createKeyDoubleMap (registry : Registry) (itemFn : CreateItemFn)
    (args : JsValue) (hashers : HasherFunction * option HasherFunction)
  : result U8a :=
  let '(hasher1, hasher2) := hashers in
  let name := name (meta itemFn) in
  _ <- assert (isArray args
               && negb (isUndefined (index args 0)) && negb (isNull (index args 0))
               && negb (isUndefined (index args 1)) && negb (isNull (index args 1)))
         (String.append name " is a DoubleMap and requires two arguments") ;;
  match hasher2 with
  | None => Err "2 hashing functions should be defined for DoubleMaps"
  | Some hasher2 =>
      let key1 := index args 0 in
      let key2 := index args 1 in
      match type (meta itemFn) with
      | DoubleMap map =>
          val1 <- createTypeU8a registry (AsDoubleMap.key1 map) key1 ;;
          val2 <- createTypeU8a registry (AsDoubleMap.key2 map) key2 ;;
          Ok (compactAddLength (u8aConcat
                [createPrefixedKey itemFn; hasher1 val1; hasher2 val2]))
      | _ => Err "Cannot convert to DoubleMap via asDoubleMap"
      end
  end.

(** create a key for either a map or a plain value *)
Definition createKey (registry : Registry) (itemFn : CreateItemFn)
    (arg : JsValue) (hasher : HasherFunction) : result U8a :=
  let name := name (meta itemFn) in
  param <-
    match type (meta itemFn) with
    | Map map =>
        _ <- assert (negb (isUndefined arg) && negb (isNull arg))
               (String.append name " is a Map and requires one argument") ;;
        createTypeU8a registry (AsMap.key map) arg
    | _ => Ok EMPTY_U8A
    end ;;
  Ok (compactAddLength (u8aConcat
        [createPrefixedKey itemFn;
         if (List.length param =? 0)%nat then EMPTY_U8A else hasher param])).

(** attach the metadata to expand to a StorageFunction; [iterKey] and
    [keyPrefix] are not set yet, and calling the latter is a TypeError. *)
Definition expandWithMeta (itemFn : CreateItemFn)
    (_storageFn : JsValue -> result U8a) : StorageEntry.t :=
  {| StorageEntry.call := _storageFn;
     StorageEntry.iterKey := None;
     StorageEntry.keyPrefix := fun _ => Err "storageFn.keyPrefix is not a function";
     StorageEntry.meta := meta itemFn;
     StorageEntry.method := stringLowerFirst (method itemFn);
     StorageEntry.prefix := prefix itemFn;
     StorageEntry.section := section itemFn;
     StorageEntry.toJSON :=
       (meta itemFn, (method itemFn, prefix itemFn, section itemFn)) |}.

Definition extendHeadMeta (registry : Registry) (itemFn : CreateItemFn)
    (storageFn : StorageEntry.t) (iterFn : JsValue -> result Raw)
  : result (JsValue -> result StorageKey) :=
  let method := StorageEntry.method storageFn in
  let section := section itemFn in
  outputType <-
    match type (meta itemFn) with
    | Map asMap => Ok (AsMap.key asMap)
    | DoubleMap asDoubleMap => Ok (AsDoubleMap.key1 asDoubleMap)
    | Plain _ => Err "Cannot convert to DoubleMap via asDoubleMap"
    end ;;
  (* metadata with a fallback value using the type of the key *)
  fallback <- createTypeHex registry outputType ;;
  let iterFn' :=
    {| iter_call := iterFn;
       iter_meta :=
         {| documentation := documentation (meta itemFn);
            fallback := fallback;
            modifier := 1;
            name := name (meta itemFn);
            type := Plain outputType |} |} in
  prefixKey <- createStorageKey (FromIterFn iterFn') (method, section) ;;
  Ok (fun arg =>
        if negb (isUndefined arg) && negb (isNull arg)
        then raw <- iterFn arg ;; createStorageKey (FromRaw raw) (method, section)
        else Ok prefixKey).

(** The function that [extendPrefixedMap] hands to [extendHeadMeta]. *)
Definition iterFn (registry : Registry) (itemFn : CreateItemFn)
    (arg : JsValue) : result Raw :=
  let type := type (meta itemFn) in
  _ <- assert (isDoubleMap type || isUndefined arg)
         "Filtering arguments for keys/entries are only valid on double maps" ;;
  match type with
  | DoubleMap asDoubleMap =>
      if negb (isUndefined arg) && negb (isNull arg)
      then
        val <- createTypeU8a registry (AsDoubleMap.key1 asDoubleMap) arg ;;
        Ok {| raw_u8a := u8aConcat
                [createPrefixedKey itemFn;
                 getHasher (Some (AsDoubleMap.hasher asDoubleMap)) val] |}
      else Ok {| raw_u8a := createPrefixedKey itemFn |}
  | _ => Ok {| raw_u8a := createPrefixedKey itemFn |}
  end.

(** attach the full list hashing for prefixed maps *)
Definition extendPrefixedMap (registry : Registry) (itemFn : CreateItemFn)
    (storageFn : StorageEntry.t) : result StorageEntry.t :=
  iterKey <- extendHeadMeta registry itemFn storageFn (iterFn registry itemFn) ;;
  Ok {| StorageEntry.call := StorageEntry.call storageFn;
        StorageEntry.iterKey := Some iterKey;
        StorageEntry.keyPrefix := StorageEntry.keyPrefix storageFn;
        StorageEntry.meta := StorageEntry.meta storageFn;
        StorageEntry.method := StorageEntry.method storageFn;
        StorageEntry.prefix := StorageEntry.prefix storageFn;
        StorageEntry.section := StorageEntry.section storageFn;
        StorageEntry.toJSON := StorageEntry.toJSON storageFn |}.

(** The callable of the entry: the arrow function given to
    [expandWithMeta], over the hashers that [createFunction] got from
    [getHashers]. *)
Definition storageFn (registry : Registry) (itemFn : CreateItemFn)
    (options : CreateItemOptions) (arg : JsValue) : result U8a :=
  let '(hasher, key2Hasher) := getHashers itemFn in
  if isDoubleMap (type (meta itemFn))
  then createKeyDoubleMap registry itemFn arg (hasher, key2Hasher)
  else if truthy (skipHashing options)
  then Ok (compactAddLength (u8aToU8a (key options)))
  else createKey registry itemFn arg hasher.

Definition createFunction (registry : Registry) (itemFn : CreateItemFn)
    (options : CreateItemOptions) : result StorageEntry.t :=
  let type := type (meta itemFn) in
  let entry := expandWithMeta itemFn (storageFn registry itemFn options) in
  entry <-
    (if isMap type || isDoubleMap type
     then extendPrefixedMap registry itemFn entry
     else Ok entry) ;;
  Ok {| StorageEntry.call := StorageEntry.call entry;
        StorageEntry.iterKey := StorageEntry.iterKey entry;
        StorageEntry.keyPrefix := fun arg =>
          match StorageEntry.iterKey entry with
          | Some iterKey => k <- iterKey arg ;; Ok (PrefixKey k)
          | None =>
              full <- StorageEntry.call entry JsUndefined ;;
              Ok (PrefixU8a (snd (compactStripLength full)))
          end;
        StorageEntry.meta := StorageEntry.meta entry;
        StorageEntry.method := StorageEntry.method entry;
        StorageEntry.prefix := StorageEntry.prefix entry;
        StorageEntry.section := StorageEntry.section entry;
        StorageEntry.toJSON := StorageEntry.toJSON entry |}.

End CreateFunction.

(** ** The shape of a created entry *)

Section EntryShape.

Context `{Hashers}.
Variable registry : Registry.
Variable itemFn : CreateItemFn.
Variable options : CreateItemOptions.

(** The type whose zero value is the fallback of the head metadata. *)
Definition outputTypeOf (type : StorageEntryType) : string :=
  match type with
  | Map asMap => AsMap.key asMap
  | DoubleMap asDoubleMap => AsDoubleMap.key1 asDoubleMap
  | Plain value => value
  end.

(** The key that [iterKey] gives back when it gets no filter: made once,
    when the entry is created. *)
Definition prefixKeyOf (outputType : string) (fallback : U8a) : StorageKey :=
  {| sk_u8a := createPrefixedKey itemFn;
     sk_meta := Some {| documentation := documentation (meta itemFn);
                        fallback := fallback;
                        modifier := 1;
                        name := name (meta itemFn);
                        type := Plain outputType |};
     sk_method := stringLowerFirst (method itemFn);
     sk_section := section itemFn |}.

(** The closure that [extendHeadMeta] returns, given that key. *)
Definition iterKeyOf (prefixKey : StorageKey) (arg : JsValue)
  : result StorageKey :=
  if negb (isUndefined arg) && negb (isNull arg)
  then raw <- iterFn registry itemFn arg ;;
       createStorageKey (FromRaw raw)
         (stringLowerFirst (method itemFn), section itemFn)
  else Ok prefixKey.

(** The entry, given what [iterKey] was set to. *)
Definition entryOf (iterKey : option (JsValue -> result StorageKey))
  : StorageEntry.t :=
  {| StorageEntry.call := storageFn registry itemFn options;
     StorageEntry.iterKey := iterKey;
     StorageEntry.keyPrefix := fun arg =>
       match iterKey with
       | Some iterKey => k <- iterKey arg ;; Ok (PrefixKey k)
       | None =>
           full <- storageFn registry itemFn options JsUndefined ;;
           Ok (PrefixU8a (snd (compactStripLength full)))
       end;
     StorageEntry.meta := meta itemFn;
     StorageEntry.method := stringLowerFirst (method itemFn);
     StorageEntry.prefix := prefix itemFn;
     StorageEntry.section := section itemFn;
     StorageEntry.toJSON :=
       (meta itemFn, (method itemFn, prefix itemFn, section itemFn)) |}.

End EntryShape.

(** ** Vocabulary of the properties *)

(** Neither a value nor a key: [undefined] (also an omitted argument) or
    [null]. *)
Definition isNullish (value : JsValue) : bool :=
  isUndefined value || isNull value.

(** How many keys a call supplies: the elements of a pair that are neither
    [null] nor [undefined], or the single argument when it is not an array. *)
Definition suppliedKeys (args : JsValue) : nat :=
  match args with
  | JsArray elems => List.length (filter (fun v => negb (isNullish v)) elems)
  | v => if isNullish v then 0%nat else 1%nat
  end.

(** [p] is a byte-prefix of [u]. *)
Definition isPrefixOf (p u : U8a) : Prop := exists rest, u = p ++ rest.

Fixpoint startsWith (u p : U8a) {struct p} : bool :=
  match p, u with
  | [], _ => true
  | b :: p', c :: u' => Byte.eqb b c && startsWith u' p'
  | _ :: _, [] => false
  end.

(** ** The specification's wording, where the code differs from it *)

Section Worded.

Context `{Hashers}.
Variable registry : Registry.
Variable itemFn : CreateItemFn.
Variable options : CreateItemOptions.

(** 4.2: the base prefix hashes the section and the method. *)
Definition prefix_hashes_section : Prop :=
  createPrefixedKey itemFn
  = xxhashAsU8a (section itemFn) 128 ++ xxhashAsU8a (method itemFn) 128.

(** 4.3, 8: the call of a Plain item with this argument fails. *)
Definition call_fails (arg : JsValue) : Prop :=
  forall entry,
    createFunction registry itemFn options = Ok entry ->
    exists msg, StorageEntry.call entry arg = Err msg.

(** 4.3: with hashing skipped the call returns the raw key, length
    prefixed, whatever the shape. *)
Definition call_returns_raw_key (arg : JsValue) : Prop :=
  truthy (skipHashing options) = true ->
  forall entry,
    createFunction registry itemFn options = Ok entry ->
    StorageEntry.call entry arg
    = Ok (compactAddLength (u8aToU8a (key options))).

(** 8: the iteration prefix of a first key is a byte-prefix of the full
    key of a pair with that first key. *)
Definition iterKey_prefix_of_call (key1 key2 : JsValue) : Prop :=
  forall entry iterKey prefixKey full,
    createFunction registry itemFn options = Ok entry ->
    StorageEntry.iterKey entry = Some iterKey ->
    iterKey key1 = Ok prefixKey ->
    StorageEntry.call entry (JsArray [key1; key2]) = Ok full ->
    isPrefixOf (sk_u8a prefixKey) full.

(** 8: [iterKey] of a first key is length-prefixed like a full key, and
    only [keyPrefix] gives the body without the length. *)
Definition iterKey_length_prefixed (key1 : JsValue) : Prop :=
  forall entry iterKey asDoubleMap val1 k p,
    createFunction registry itemFn options = Ok entry ->
    type (meta itemFn) = DoubleMap asDoubleMap ->
    StorageEntry.iterKey entry = Some iterKey ->
    createTypeU8a registry (AsDoubleMap.key1 asDoubleMap) key1 = Ok val1 ->
    iterKey key1 = Ok k ->
    StorageEntry.keyPrefix entry key1 = Ok p ->
    let body :=
      createPrefixedKey itemFn
      ++ getHasher (Some (AsDoubleMap.hasher asDoubleMap)) val1 in
    sk_u8a k = compactAddLength body /\ keyPrefix_u8a p = body.

(** The call of a Plain item returns the length-prefixed base prefix. *)
Definition call_returns_base_prefix (arg : JsValue) : Prop :=
  forall entry,
    createFunction registry itemFn options = Ok entry ->
    StorageEntry.call entry arg
    = Ok (compactAddLength (createPrefixedKey itemFn)).

End Worded.

(** ** A sample chain

    A small registry, a hasher table and a few storage items, on which the
    definitions above run. *)

Module Sample.

(** Hashers built on xxhash and the identity; the other kinds are left to
    the default function. *)
Definition hashers : Hashers :=
  {| getHasher := fun hasher data =>
       match hasher with
       | Some Identity => data
       | Some Twox64 => xxhashU8a data 64
       | Some Twox256 => xxhashU8a data 256
       | Some Twox64Concat => u8aConcat [xxhashU8a data 64; data]
       | _ => xxhashU8a data 128
       end |}.

Definition uint (bytes : nat) (value : JsValue) : result U8a :=
  match value with
  | JsUndefined => Ok (le_bytes bytes 0)
  | JsNumber n =>
      if (0 <=? n) && (n <? 2 ^ (8 * Z.of_nat bytes))
      then Ok (le_bytes bytes n)
      else Err "Input too large"
  | _ => Err "Unable to convert input to a number"
  end.

(** The types [u8], [u32] and [Null]; nothing else is registered. *)
Definition registry : Registry :=
  {| createTypeU8a := fun type value =>
       if String.eqb type "u8" then uint 1 value
       else if String.eqb type "u32" then uint 4 value
       else if String.eqb type "Null" then Ok []
       else Err "Unable to create type";
     createTypeHex := fun type =>
       if String.eqb type "u8" then Ok (le_bytes 1 0)
       else if String.eqb type "u32" then Ok (le_bytes 4 0)
       else if String.eqb type "Null" then Ok []
       else Err "Unable to create type" |}.

Definition item (type : StorageEntryType) (prefix section method : string)
  : CreateItemFn :=
  {| meta := {| name := method; modifier := 1; type := type;
                fallback := []; documentation := [] |};
     method := method; prefix := prefix; section := section |}.

Definition now : CreateItemFn :=
  item (Plain "u32") "Timestamp" "timestamp" "Now".

Definition account : CreateItemFn :=
  item (Map {| AsMap.hasher := Twox64Concat; AsMap.key := "u32";
               AsMap.value := "u32" |})
    "System" "system" "Account".

Definition marker : CreateItemFn :=
  item (Map {| AsMap.hasher := Twox64Concat; AsMap.key := "Null";
               AsMap.value := "u32" |})
    "System" "system" "Marker".

Definition erasStakers : CreateItemFn :=
  item (DoubleMap {| AsDoubleMap.hasher := Twox64Concat;
                     AsDoubleMap.key1 := "u32";
                     AsDoubleMap.key2 := "u8";
                     AsDoubleMap.value := "u32";
                     AsDoubleMap.key2Hasher := Identity |})
    "Staking" "staking" "ErasStakers".

Definition hashed : CreateItemOptions :=
  {| key := None; skipHashing := None |}.

Definition rawKey : CreateItemOptions :=
  {| key := Some "0x3a636f6465"; skipHashing := Some true |}.

Definition pair (a b : Z) : JsValue := JsArray [JsNumber a; JsNumber b].

(** A Map whose key type the registry does not know, and options that skip
    hashing without giving a key. *)
Definition owners : CreateItemFn :=
  item (Map {| AsMap.hasher := Twox64Concat; AsMap.key := "AccountId";
               AsMap.value := "u32" |})
    "System" "system" "Owners".

Definition noKey : CreateItemOptions :=
  {| key := None; skipHashing := Some true |}.

(** The entries that [createFunction] builds for these items. *)
Definition nowEntry (options : CreateItemOptions) : StorageEntry.t :=
  @entryOf hashers registry now options None.

Definition accountEntry : StorageEntry.t :=
  @entryOf hashers registry account hashed
    (Some (@iterKeyOf hashers registry account
             (prefixKeyOf account "u32" (le_bytes 4 0)))).

Definition erasStakersEntry (options : CreateItemOptions) : StorageEntry.t :=
  @entryOf hashers registry erasStakers options
    (Some (@iterKeyOf hashers registry erasStakers
             (prefixKeyOf erasStakers "u32" (le_bytes 4 0)))).

(** The first key 7 of [Staking.ErasStakers], as [iterKey] returns it, and
    the full key of the pair (7, 9). *)
Definition firstKey7 : StorageKey :=
  {| sk_u8a := createPrefixedKey erasStakers
               ++ @getHasher hashers (Some Twox64Concat) (le_bytes 4 7);
     sk_meta := None;
     sk_method := "erasStakers";
     sk_section := "staking" |}.

Definition fullKey79 : U8a :=
  compactAddLength (u8aConcat
    [createPrefixedKey erasStakers;
     @getHasher hashers (Some Twox64Concat) (le_bytes 4 7);
     @getHasher hashers (Some Identity) (le_bytes 1 9)]).

End Sample.


(** ** Bytes and the compact length prefix *)

Lemma Z_of_byte_of_Z (z : Z) : Z_of_byte (byte_of_Z z) = z mod 256.
Proof.
  unfold Z_of_byte, byte_of_Z.
  assert (Hr : 0 <= z mod 256 < 256) by (apply Z.mod_pos_bound; lia).
  destruct (Byte.of_N (Z.to_N (z mod 256))) as [b|] eqn:E.
  - apply Byte.to_of_N in E. rewrite E. lia.
  - apply Byte.of_N_None_iff in E. lia.
Qed.

Lemma Z_of_byte_range (b : byte) : 0 <= Z_of_byte b < 256.
Proof.
  unfold Z_of_byte. pose proof (Byte.to_N_bounded b). lia.
Qed.

Lemma length_le_bytes (n : nat) (z : Z) : List.length (le_bytes n z) = n.
Proof.
  revert z. induction n as [|n IH]; intros z; simpl; [reflexivity|].
  now rewrite IH.
Qed.

Lemma le_value_le_bytes (n : nat) (z : Z) :
  le_value (le_bytes n z) = z mod 2 ^ (8 * Z.of_nat n).
Proof.
  revert z. induction n as [|n IH]; intros z.
  - simpl. now rewrite Z.mod_1_r.
  - cbn [le_bytes le_value]. rewrite Z_of_byte_of_Z, IH.
    replace (8 * Z.of_nat (S n)) with (8 + 8 * Z.of_nat n) by lia.
    rewrite Z.pow_add_r by lia.
    rewrite Z.shiftr_div_pow2 by lia.
    change (2 ^ 8) with 256.
    rewrite Z.rem_mul_r by lia. reflexivity.
Qed.

Lemma startsWith_spec (u p : U8a) : startsWith u p = true <-> isPrefixOf p u.
Proof.
  revert u. induction p as [|b p IH]; intros u.
  - simpl. split; [intros _; now exists u | reflexivity].
  - destruct u as [|c u]; simpl.
    + split; [discriminate | intros [rest Hr]; discriminate].
    + rewrite andb_true_iff, IH. split.
      * intros [Hb [rest ->]]. apply Byte.byte_dec_bl in Hb. subst c.
        now exists rest.
      * intros [rest Hr]. injection Hr as -> ->. split.
        -- now apply Byte.byte_dec_lb.
        -- now exists rest.
Qed.

Lemma isPrefixOf_app (p q : U8a) : isPrefixOf p (p ++ q).
Proof. now exists q. Qed.

Lemma subarray_after (header body : U8a) :
  subarray (header ++ body) (Z.of_nat (List.length header))
    (Z.of_nat (List.length header) + Z.of_nat (List.length body)) = body.
Proof.
  unfold subarray.
  replace (Z.to_nat (_ + _ - _)) with (List.length body) by lia.
  rewrite Nat2Z.id, skipn_app, skipn_all, Nat.sub_diag. simpl.
  apply firstn_all.
Qed.

Lemma compactAddLength_app (input : U8a) :
  compactAddLength input = compactToU8a (Z.of_nat (List.length input)) ++ input.
Proof.
  unfold compactAddLength, u8aConcat. simpl. now rewrite app_nil_r.
Qed.

(** The header is never empty: a length-prefixed key is longer than its
    body. *)
Lemma compactToU8a_nonempty (value : Z) : compactToU8a value <> [].
Proof.
  unfold compactToU8a.
  destruct (value <=? MAX_U8); [discriminate|].
  destruct (value <=? MAX_U16); [discriminate|].
  destruct (value <=? MAX_U32); discriminate.
Qed.

Lemma compactAddLength_longer (input : U8a) :
  (List.length input < List.length (compactAddLength input))%nat.
Proof.
  rewrite compactAddLength_app, length_app.
  pose proof (compactToU8a_nonempty (Z.of_nat (List.length input))) as Hne.
  destruct (compactToU8a _); [congruence | simpl; lia].
Qed.

Lemma compactAddLength_neq (input : U8a) : compactAddLength input <> input.
Proof.
  intros E. pose proof (compactAddLength_longer input) as Hl.
  rewrite E in Hl. lia.
Qed.

(** What [compactFromU8a] reads back from a header written by
    [compactToU8a], for the lengths below [2 ^ 30]. *)
Lemma compactFromU8a_compactToU8a (value : Z) (rest : U8a) :
  0 <= value <= MAX_U32 ->
  compactFromU8a (compactToU8a value ++ rest)
  = (Z.of_nat (List.length (compactToU8a value)), value).
Proof.
  intros Hv. unfold compactToU8a, MAX_U8, MAX_U16, MAX_U32 in *.
  change (2 ^ (8 - 2) - 1) with 63 in *.
  change (2 ^ (16 - 2) - 1) with 16383 in *.
  change (2 ^ (32 - 2) - 1) with 1073741823 in *.
  rewrite Z.shiftl_mul_pow2 by lia. change (2 ^ 2) with 4.
  destruct (Z.leb_spec value 63) as [H1|H1];
    [|destruct (Z.leb_spec value 16383) as [H2|H2];
      [|destruct (Z.leb_spec value 1073741823) as [H3|H3]; [|lia]]].
  - unfold compactFromU8a. cbn [app hd List.length].
    rewrite Z_of_byte_of_Z, Z.mod_small by lia.
    change 3 with (Z.ones 2). rewrite Z.land_ones by lia. change (2 ^ 2) with 4.
    rewrite Z.mod_mul by lia. cbn [Z.eqb Pos.eqb].
    rewrite Z.shiftr_div_pow2 by lia. change (2 ^ 2) with 4.
    now rewrite Z.div_mul by lia.
  - unfold compactFromU8a. cbn [le_bytes app hd List.length firstn].
    rewrite Z_of_byte_of_Z.
    change 3 with (Z.ones 2). rewrite Z.land_ones by lia. change (2 ^ 2) with 4.
    replace ((value * 4 + 1) mod 256 mod 4) with 1.
    2:{ Z.div_mod_to_equations; lia. }
    cbn [Z.eqb Pos.eqb].
    change [byte_of_Z (value * 4 + 1); byte_of_Z (Z.shiftr (value * 4 + 1) 8)]
      with (le_bytes 2 (value * 4 + 1)).
    rewrite le_value_le_bytes. change (2 ^ (8 * Z.of_nat 2)) with 65536.
    rewrite Z.mod_small by lia.
    rewrite Z.shiftr_div_pow2 by lia. change (2 ^ 2) with 4.
    f_equal. Z.div_mod_to_equations; lia.
  - unfold compactFromU8a. cbn [le_bytes app hd List.length firstn].
    rewrite Z_of_byte_of_Z.
    change 3 with (Z.ones 2). rewrite Z.land_ones by lia. change (2 ^ 2) with 4.
    replace ((value * 4 + 2) mod 256 mod 4) with 2.
    2:{ Z.div_mod_to_equations; lia. }
    cbn [Z.eqb Pos.eqb].
    match goal with
    | |- context [le_value ?l] => change l with (le_bytes 4 (value * 4 + 2))
    end.
    rewrite le_value_le_bytes. change (2 ^ (8 * Z.of_nat 4)) with 4294967296.
    rewrite Z.mod_small by lia.
    rewrite Z.shiftr_div_pow2 by lia. change (2 ^ 2) with 4.
    f_equal. Z.div_mod_to_equations; lia.
Qed.

(** Stripping the prefix that [compactAddLength] wrote gives the body
    back. *)
Lemma compactStripLength_compactAddLength (body : U8a) :
  Z.of_nat (List.length body) <= MAX_U32 ->
  snd (compactStripLength (compactAddLength body)) = body.
Proof.
  intros Hb. rewrite compactAddLength_app. unfold compactStripLength.
  rewrite compactFromU8a_compactToU8a by lia. cbn [snd].
  apply subarray_after.
Qed.

(** ** The base prefix *)

(** The 64-bit xxhash on its reference vectors, short and long input. *)
Example h64_abc : XXH64.h64 (stringToU8a "abc") 0 = 0x44BC2CF5AD770999.
Proof. vm_compute. reflexivity. Qed.

Example h64_long :
  XXH64.h64 (stringToU8a "Nobody inspects the spammish repetition") 0
  = 0xFBCEA83C8A378BF1.
Proof. vm_compute. reflexivity. Qed.

(** [twox128] of a module prefix, and the storage key of [Timestamp.Now], as
    the chain has them. *)
Example xxhashAsU8a_System :
  xxhashAsU8a "System" 128 = hexToU8a "0x26aa394eea5630e07c48ae0c9558cef7".
Proof. vm_compute. reflexivity. Qed.

Example createPrefixedKey_now :
  createPrefixedKey Sample.now
  = hexToU8a
      "0xf0c365c3cf59d671eb72da0e7a4113c49f1f0515f462cdcf84e0f1d6045dfcbb".
Proof. vm_compute. reflexivity. Qed.

Lemma length_xxhashAsU8a_128 (data : string) :
  List.length (xxhashAsU8a data 128) = 16%nat.
Proof.
  unfold xxhashAsU8a, xxhashU8a.
  change (Z.to_nat ((128 + 63) / 64)) with 2%nat.
  cbn [xxhash_seeds].
  now rewrite !length_app, !length_le_bytes.
Qed.

Lemma createPrefixedKey_app (itemFn : CreateItemFn) :
  createPrefixedKey itemFn
  = xxhashAsU8a (prefix itemFn) 128 ++ xxhashAsU8a (method itemFn) 128.
Proof.
  unfold createPrefixedKey, u8aConcat. cbn [List.concat].
  now rewrite app_nil_r.
Qed.

Lemma length_createPrefixedKey (itemFn : CreateItemFn) :
  List.length (createPrefixedKey itemFn) = 32%nat.
Proof.
  now rewrite createPrefixedKey_app, length_app, !length_xxhashAsU8a_128.
Qed.

(** A Map whose key encodes to no bytes has the base prefix for body,
    whatever the hasher. *)
Example createKey_marker (hasher : HasherFunction) :
  createKey Sample.registry Sample.marker (JsNumber 7) hasher
  = Ok (compactAddLength (createPrefixedKey Sample.marker)).
Proof.
  unfold createKey. cbn [Sample.marker Sample.item meta type].
  cbn [isUndefined isNull negb andb assert bind].
  change (createTypeU8a Sample.registry _ (JsNumber 7)) with (@Ok U8a []).
  cbn [bind List.length Nat.eqb EMPTY_U8A]. unfold u8aConcat.
  cbn [List.concat]. now rewrite app_nil_r.
Qed.

(** ** What [createFunction] builds *)

Lemma Ok_inj {A : Type} (a b : A) : Ok a = Ok b -> a = b.
Proof.
  intros E.
  exact (f_equal (fun r => match r with Ok x => x | Err _ => a end) E).
Qed.

Section Entries.

Context `{Hashers}.
Variable registry : Registry.
Variable itemFn : CreateItemFn.
Variable options : CreateItemOptions.

Lemma iterFn_undefined :
  isPlain (type (meta itemFn)) = false ->
  iterFn registry itemFn JsUndefined
  = Ok {| raw_u8a := createPrefixedKey itemFn |}.
Proof.
  unfold iterFn. destruct (type (meta itemFn)); simpl; intros Hp;
    [discriminate | reflexivity | reflexivity].
Qed.

Lemma createFunction_eq :
  createFunction registry itemFn options
  = if isPlain (type (meta itemFn))
    then Ok (entryOf registry itemFn options None)
    else
      fallback <- createTypeHex registry (outputTypeOf (type (meta itemFn))) ;;
      Ok (entryOf registry itemFn options (Some (iterKeyOf registry itemFn
            (prefixKeyOf itemFn (outputTypeOf (type (meta itemFn))) fallback)))).
Proof.
  unfold createFunction, extendPrefixedMap, extendHeadMeta.
  destruct (type (meta itemFn)) as [t|m|d] eqn:Et; cbn.
  - reflexivity.
  - destruct (createTypeHex registry (AsMap.key m)) as [fb|]; cbn;
      [|reflexivity].
    rewrite iterFn_undefined by now rewrite Et. reflexivity.
  - destruct (createTypeHex registry (AsDoubleMap.key1 d)) as [fb|]; cbn;
      [|reflexivity].
    rewrite iterFn_undefined by now rewrite Et. reflexivity.
Qed.

(** Every entry that [createFunction] returns is an [entryOf]: without
    [iterKey] for a Plain item, with it for a Map or a DoubleMap. *)
Lemma createFunction_Ok (entry : StorageEntry.t) :
  createFunction registry itemFn options = Ok entry ->
  (isPlain (type (meta itemFn)) = true /\ entry = entryOf registry itemFn options None)
  \/ (isPlain (type (meta itemFn)) = false
      /\ exists fallback,
           createTypeHex registry (outputTypeOf (type (meta itemFn)))
           = Ok fallback
           /\ entry = entryOf registry itemFn options (Some (iterKeyOf registry itemFn
                (prefixKeyOf itemFn (outputTypeOf (type (meta itemFn))) fallback)))).
Proof.
  rewrite createFunction_eq.
  destruct (isPlain (type (meta itemFn))).
  - intros E. apply Ok_inj in E. left. now split.
  - destruct (createTypeHex registry _) as [fb|]; cbn; [|discriminate].
    intros E. apply Ok_inj in E. right. split; [reflexivity|].
    now exists fb.
Qed.

Lemma createFunction_call (entry : StorageEntry.t) :
  createFunction registry itemFn options = Ok entry ->
  StorageEntry.call entry = storageFn registry itemFn options.
Proof.
  intros E. destruct (createFunction_Ok entry E) as [[_ ->]|[_ [fb [_ ->]]]];
    reflexivity.
Qed.

End Entries.

(** ** The claims *)

Section Claims.

Context `{Hashers}.

(** C1, as the code has it: for every storage item descriptor the base
    prefix is [xxhash128(prefix) ++ xxhash128(method)], hashed over the
    [prefix] field of the descriptor and not over [section]; it is exactly
    32 bytes long and stays the same under any change of the metadata
    (shape, declared hashers) and of [section]. *)
Theorem C1_base_prefix (itemFn : CreateItemFn) :
  createPrefixedKey itemFn
  = xxhashAsU8a (prefix itemFn) 128 ++ xxhashAsU8a (method itemFn) 128
  /\ List.length (createPrefixedKey itemFn) = 32%nat
  /\ forall meta' section',
       createPrefixedKey {| meta := meta'; method := method itemFn;
                            prefix := prefix itemFn; section := section' |}
       = createPrefixedKey itemFn.
Proof.
  split; [apply createPrefixedKey_app|].
  split; [apply length_createPrefixedKey|].
  reflexivity.
Qed.

(** C2: for a Map item and an argument that is neither [null] nor
    [undefined], whose encoding with the key type is [param], [createKey]
    returns the length-prefixed body: the base prefix followed by
    [hasher(param)], or the base prefix alone when [param] is empty. The
    call of an entry created without [skipHashing] is this key, with the
    hasher the Map declares. *)
Theorem C2_map_key (registry : Registry) (itemFn : CreateItemFn)
    (asMap : AsMap.t) (arg : JsValue) (param : U8a) :
  type (meta itemFn) = Map asMap ->
  isNullish arg = false ->
  createTypeU8a registry (AsMap.key asMap) arg = Ok param ->
  let body (hasher : HasherFunction) :=
    if (List.length param =? 0)%nat
    then createPrefixedKey itemFn
    else createPrefixedKey itemFn ++ hasher param in
  (forall hasher,
     createKey registry itemFn arg hasher = Ok (compactAddLength (body hasher)))
  /\ (forall options entry,
        truthy (skipHashing options) = false ->
        createFunction registry itemFn options = Ok entry ->
        StorageEntry.call entry arg
        = Ok (compactAddLength (body (getHasher (Some (AsMap.hasher asMap)))))).
Proof.
  intros Et Harg Hparam body.
  assert (Hkey : forall hasher,
    createKey registry itemFn arg hasher = Ok (compactAddLength (body hasher))).
  { intros hasher. unfold createKey. rewrite Et.
    unfold isNullish in Harg. apply orb_false_iff in Harg as [-> ->].
    cbn [negb andb assert bind]. rewrite Hparam. cbn [bind].
    unfold body, u8aConcat, EMPTY_U8A.
    destruct (List.length param =? 0)%nat; cbn [List.concat];
      now rewrite !app_nil_r. }
  split; [exact Hkey|].
  intros options entry Hskip Hentry.
  rewrite (createFunction_call _ _ _ _ Hentry).
  unfold storageFn, getHashers. rewrite Et. cbn [isDoubleMap].
  rewrite Hskip. apply Hkey.
Qed.

(** The callable of a Plain item never looks at its argument. *)
Lemma storageFn_plain (registry : Registry) (itemFn : CreateItemFn)
    (options : CreateItemOptions) (value : string) (arg : JsValue) :
  type (meta itemFn) = Plain value ->
  storageFn registry itemFn options arg
  = Ok (compactAddLength
          (if truthy (skipHashing options)
           then u8aToU8a (key options)
           else createPrefixedKey itemFn)).
Proof.
  intros Et. unfold storageFn, getHashers, createKey. rewrite Et.
  cbn [isDoubleMap]. destruct (truthy (skipHashing options));
    [reflexivity|].
  cbn [bind EMPTY_U8A List.length Nat.eqb]. unfold u8aConcat.
  cbn [List.concat]. now rewrite app_nil_r.
Qed.

(** C3, as the code has it: a Map item called with [null], [undefined] or
    nothing fails, both in [createKey] and in the call of an entry created
    without [skipHashing]; a DoubleMap item called with fewer than two keys
    that are neither [null] nor [undefined] fails. No bytes are returned
    in either case. A Plain item has no such check: its call returns a
    key whatever the argument. *)
Theorem C3_arity (registry : Registry) (itemFn : CreateItemFn)
    (options : CreateItemOptions) (entry : StorageEntry.t) (arg : JsValue) :
  createFunction registry itemFn options = Ok entry ->
  (forall asMap,
     type (meta itemFn) = Map asMap ->
     isNullish arg = true ->
     (forall hasher,
        createKey registry itemFn arg hasher
        = Err (String.append (name (meta itemFn))
                 " is a Map and requires one argument"))
     /\ (truthy (skipHashing options) = false ->
         StorageEntry.call entry arg
         = Err (String.append (name (meta itemFn))
                  " is a Map and requires one argument")))
  /\ (forall asDoubleMap,
        type (meta itemFn) = DoubleMap asDoubleMap ->
        (suppliedKeys arg < 2)%nat ->
        StorageEntry.call entry arg
        = Err (String.append (name (meta itemFn))
                 " is a DoubleMap and requires two arguments"))
  /\ (forall value,
        type (meta itemFn) = Plain value ->
        exists key, StorageEntry.call entry arg = Ok key).
Proof.
  intros Hentry. rewrite (createFunction_call _ _ _ _ Hentry).
  split; [|split].
  3:{ intros value Et. rewrite (storageFn_plain _ _ _ value) by assumption.
      eexists. reflexivity. }
  - intros asMap Et Harg.
    assert (Hkey : forall hasher,
      createKey registry itemFn arg hasher
      = Err (String.append (name (meta itemFn))
               " is a Map and requires one argument")).
    { intros hasher. unfold createKey. rewrite Et.
      replace (negb (isUndefined arg) && negb (isNull arg)) with false.
      - reflexivity.
      - unfold isNullish in Harg.
        destruct (isUndefined arg), (isNull arg); try reflexivity;
          discriminate. }
    split; [exact Hkey|].
    intros Hskip. unfold storageFn, getHashers. rewrite Et.
    cbn [isDoubleMap]. rewrite Hskip. apply Hkey.
  - intros asDoubleMap Et Hfew.
    unfold storageFn, getHashers. rewrite Et. cbn [isDoubleMap].
    unfold createKeyDoubleMap.
    match goal with
    | |- context [assert ?c _] => replace c with false
    end; [reflexivity|].
    destruct arg as [| | | | | |elems]; try reflexivity.
    destruct elems as [|k1 [|k2 rest]].
    + reflexivity.
    + cbn. destruct (isUndefined k1), (isNull k1); reflexivity.
    + cbn in Hfew |- *. unfold isNullish in Hfew.
      destruct (isUndefined k1), (isNull k1); try reflexivity;
        destruct (isUndefined k2), (isNull k2); try reflexivity.
      cbn in Hfew. lia.
Qed.

(** C4, as the code has it: for a Plain or a Map item created with
    [skipHashing], the call returns [compactAddLength(u8aToU8a(key))]
    whatever the argument, with no encoding and no hashing. For a DoubleMap
    item the options are not looked at: the call is [createKeyDoubleMap]
    with the declared hashers. *)
Theorem C4_raw_key (registry : Registry) (itemFn : CreateItemFn)
    (options : CreateItemOptions) (entry : StorageEntry.t) (arg : JsValue) :
  createFunction registry itemFn options = Ok entry ->
  (isDoubleMap (type (meta itemFn)) = false ->
   truthy (skipHashing options) = true ->
   StorageEntry.call entry arg
   = Ok (compactAddLength (u8aToU8a (key options))))
  /\ (isDoubleMap (type (meta itemFn)) = true ->
      StorageEntry.call entry arg
      = createKeyDoubleMap registry itemFn arg (getHashers itemFn)).
Proof.
  intros Hentry. rewrite (createFunction_call _ _ _ _ Hentry).
  unfold storageFn. destruct (getHashers itemFn) as [hasher key2Hasher].
  split.
  - intros -> ->. reflexivity.
  - intros ->. reflexivity.
Qed.

(** What [iterKey] returns for a first key of a DoubleMap. *)
Lemma iterKeyOf_first_key (registry : Registry) (itemFn : CreateItemFn)
    (asDoubleMap : AsDoubleMap.t) (prefixKey : StorageKey)
    (key1 : JsValue) (val1 : U8a) :
  type (meta itemFn) = DoubleMap asDoubleMap ->
  isNullish key1 = false ->
  createTypeU8a registry (AsDoubleMap.key1 asDoubleMap) key1 = Ok val1 ->
  iterKeyOf registry itemFn prefixKey key1
  = Ok {| sk_u8a := createPrefixedKey itemFn
                    ++ getHasher (Some (AsDoubleMap.hasher asDoubleMap)) val1;
          sk_meta := None;
          sk_method := stringLowerFirst (method itemFn);
          sk_section := section itemFn |}.
Proof.
  intros Et Hk Hv. unfold isNullish in Hk.
  apply orb_false_iff in Hk as [Hu Hn].
  unfold iterKeyOf, iterFn. rewrite Et, Hu, Hn.
  cbn [negb andb isDoubleMap orb assert bind]. rewrite Hv.
  cbn [bind createStorageKey raw_u8a fst snd].
  unfold u8aConcat. cbn [List.concat]. now rewrite app_nil_r.
Qed.

(** C5, as the code has it: for a DoubleMap item, the bytes that [iterKey]
    gives for a first key are a byte-prefix of the body of every full key
    of a pair with that first key, the full key being
    [compactAddLength(body)]; below [2 ^ 30] bytes the body is what
    [compactStripLength] gives back. *)
Theorem C5_narrowing (registry : Registry) (itemFn : CreateItemFn)
    (options : CreateItemOptions) (asDoubleMap : AsDoubleMap.t)
    (entry : StorageEntry.t) (iterKey : JsValue -> result StorageKey)
    (key1 key2 : JsValue) (prefixKey : StorageKey) (full : U8a) :
  type (meta itemFn) = DoubleMap asDoubleMap ->
  createFunction registry itemFn options = Ok entry ->
  StorageEntry.iterKey entry = Some iterKey ->
  iterKey key1 = Ok prefixKey ->
  StorageEntry.call entry (JsArray [key1; key2]) = Ok full ->
  exists body,
    full = compactAddLength body
    /\ isPrefixOf (sk_u8a prefixKey) body
    /\ (Z.of_nat (List.length body) <= MAX_U32 ->
        snd (compactStripLength full) = body).
Proof.
  intros Et Hentry Hiter Hkey Hfull.
  destruct (createFunction_Ok _ _ _ _ Hentry)
    as [[Hp _]|[_ [fb [_ ->]]]]; [rewrite Et in Hp; discriminate|].
  cbn [StorageEntry.iterKey StorageEntry.call entryOf] in Hiter, Hfull.
  injection Hiter as <-.
  unfold storageFn, getHashers in Hfull. rewrite Et in Hfull.
  cbn [isDoubleMap] in Hfull. unfold createKeyDoubleMap in Hfull.
  rewrite Et in Hfull. cbn [isArray index nth andb] in Hfull.
  destruct (isUndefined key1) eqn:Hu1; [discriminate|].
  destruct (isNull key1) eqn:Hn1; [discriminate|].
  destruct (isUndefined key2) eqn:Hu2; [discriminate|].
  destruct (isNull key2) eqn:Hn2; [discriminate|].
  cbn [negb andb assert bind] in Hfull.
  destruct (createTypeU8a registry (AsDoubleMap.key1 asDoubleMap) key1)
    as [val1|] eqn:Hv1; [|discriminate].
  destruct (createTypeU8a registry (AsDoubleMap.key2 asDoubleMap) key2)
    as [val2|] eqn:Hv2; [|discriminate].
  cbn [bind] in Hfull. apply Ok_inj in Hfull.
  rewrite (iterKeyOf_first_key _ _ asDoubleMap _ _ val1) in Hkey;
    [|assumption|unfold isNullish; now rewrite Hu1, Hn1|assumption].
  apply Ok_inj in Hkey. subst prefixKey full. cbn [sk_u8a].
  eexists. split; [reflexivity|]. split.
  - unfold u8aConcat. cbn [List.concat]. rewrite app_assoc.
    apply isPrefixOf_app.
  - apply compactStripLength_compactAddLength.
Qed.

(** C6, as the code has it: for a DoubleMap item and a first key that is
    neither [null] nor [undefined] and encodes to [val1], [iterKey] returns
    a [StorageKey] whose bytes are the body
    [basePrefix ++ hasher1(val1)] itself: no length prefix is put in front
    of it, unlike a full key, and [keyPrefix] returns that same key. *)
Theorem C6_iterKey_first_key (registry : Registry) (itemFn : CreateItemFn)
    (options : CreateItemOptions) (asDoubleMap : AsDoubleMap.t)
    (entry : StorageEntry.t) (key1 : JsValue) (val1 : U8a) :
  type (meta itemFn) = DoubleMap asDoubleMap ->
  createFunction registry itemFn options = Ok entry ->
  isNullish key1 = false ->
  createTypeU8a registry (AsDoubleMap.key1 asDoubleMap) key1 = Ok val1 ->
  let body :=
    createPrefixedKey itemFn
    ++ getHasher (Some (AsDoubleMap.hasher asDoubleMap)) val1 in
  exists iterKey k,
    StorageEntry.iterKey entry = Some iterKey
    /\ iterKey key1 = Ok k
    /\ sk_u8a k = body
    /\ sk_u8a k <> compactAddLength body
    /\ StorageEntry.keyPrefix entry key1 = Ok (PrefixKey k).
Proof.
  intros Et Hentry Hk Hv body.
  destruct (createFunction_Ok _ _ _ _ Hentry)
    as [[Hp _]|[_ [fb [_ ->]]]]; [rewrite Et in Hp; discriminate|].
  cbn [StorageEntry.iterKey StorageEntry.keyPrefix entryOf].
  eexists. eexists. split; [reflexivity|].
  rewrite (iterKeyOf_first_key _ _ asDoubleMap _ _ val1) by assumption.
  split; [reflexivity|]. cbn [sk_u8a bind]. split; [reflexivity|].
  split; [|reflexivity].
  intros E. symmetry in E. exact (compactAddLength_neq _ E).
Qed.

(** C7: for a Map item, [iterKey] called with a filter key, an argument
    that is neither [null] nor [undefined], fails with the usage error and
    returns no key; so does [keyPrefix]. *)
Theorem C7_map_filter_key (registry : Registry) (itemFn : CreateItemFn)
    (options : CreateItemOptions) (asMap : AsMap.t)
    (entry : StorageEntry.t) (arg : JsValue) :
  type (meta itemFn) = Map asMap ->
  createFunction registry itemFn options = Ok entry ->
  isNullish arg = false ->
  exists iterKey,
    StorageEntry.iterKey entry = Some iterKey
    /\ iterKey arg
       = Err "Filtering arguments for keys/entries are only valid on double maps"
    /\ StorageEntry.keyPrefix entry arg
       = Err "Filtering arguments for keys/entries are only valid on double maps".
Proof.
  intros Et Hentry Hk.
  destruct (createFunction_Ok _ _ _ _ Hentry)
    as [[Hp _]|[_ [fb [_ ->]]]]; [rewrite Et in Hp; discriminate|].
  cbn [StorageEntry.iterKey StorageEntry.keyPrefix entryOf].
  eexists. split; [reflexivity|].
  unfold isNullish in Hk. apply orb_false_iff in Hk as [Hu Hn].
  assert (Hf : iterKeyOf registry itemFn
                 (prefixKeyOf itemFn (outputTypeOf (type (meta itemFn))) fb) arg
               = Err "Filtering arguments for keys/entries are only valid on double maps").
  { unfold iterKeyOf, iterFn. rewrite Et, Hu, Hn. reflexivity. }
  rewrite Hf. split; reflexivity.
Qed.

(** C8, as the code has it: the call of a Plain item succeeds whatever the
    argument and returns the bytes it returns without argument; these are
    [compactAddLength(basePrefix)] for an entry created without
    [skipHashing], and the length-prefixed raw key for one created with
    it. *)
Theorem C8_plain_ignores_argument (registry : Registry)
    (itemFn : CreateItemFn) (options : CreateItemOptions) (value : string)
    (entry : StorageEntry.t) (arg : JsValue) :
  type (meta itemFn) = Plain value ->
  createFunction registry itemFn options = Ok entry ->
  StorageEntry.call entry arg = StorageEntry.call entry JsUndefined
  /\ StorageEntry.call entry arg
     = Ok (compactAddLength
             (if truthy (skipHashing options)
              then u8aToU8a (key options)
              else createPrefixedKey itemFn)).
Proof.
  intros Et Hentry. rewrite (createFunction_call _ _ _ _ Hentry).
  now rewrite !(storageFn_plain _ _ _ value) by assumption.
Qed.

(** C9: for a Map or a DoubleMap item, [iterKey] called with [null],
    [undefined] or nothing throws nothing and returns one and the same
    key, whose bytes are the base prefix. *)
Theorem C9_iterKey_no_filter (registry : Registry) (itemFn : CreateItemFn)
    (options : CreateItemOptions) (entry : StorageEntry.t) :
  isMap (type (meta itemFn)) || isDoubleMap (type (meta itemFn)) = true ->
  createFunction registry itemFn options = Ok entry ->
  exists iterKey prefixKey,
    StorageEntry.iterKey entry = Some iterKey
    /\ sk_u8a prefixKey = createPrefixedKey itemFn
    /\ forall arg, isNullish arg = true -> iterKey arg = Ok prefixKey.
Proof.
  intros Hshape Hentry.
  destruct (createFunction_Ok _ _ _ _ Hentry)
    as [[Hp _]|[_ [fb [_ ->]]]].
  - destruct (type (meta itemFn)); discriminate.
  - cbn [StorageEntry.iterKey entryOf].
    eexists.
    exists (prefixKeyOf itemFn (outputTypeOf (type (meta itemFn))) fb).
    split; [reflexivity|]. split; [reflexivity|].
    intros arg Harg. unfold iterKeyOf, isNullish in *.
    destruct (isUndefined arg), (isNull arg); try reflexivity; discriminate.
Qed.

(** C10: the [method] field of a created entry is the method name of the
    item with its first character in lower case, while the base prefix is
    hashed over the name as it is; for the item [Timestamp.Now] the field
    is not the name, and hashing the field would not give the base
    prefix. *)
Theorem C10_method_field :
  (forall registry itemFn options entry,
     createFunction registry itemFn options = Ok entry ->
     StorageEntry.method entry = stringLowerFirst (method itemFn)
     /\ createPrefixedKey itemFn
        = xxhashAsU8a (prefix itemFn) 128 ++ xxhashAsU8a (method itemFn) 128)
  /\ exists registry itemFn options entry,
       createFunction registry itemFn options = Ok entry
       /\ StorageEntry.method entry <> method itemFn
       /\ createPrefixedKey itemFn
          <> xxhashAsU8a (prefix itemFn) 128
             ++ xxhashAsU8a (StorageEntry.method entry) 128.
Proof.
  split.
  - intros registry itemFn options entry Hentry.
    split; [|apply createPrefixedKey_app].
    destruct (createFunction_Ok _ _ _ _ Hentry)
      as [[_ ->]|[_ [fb [_ ->]]]]; reflexivity.
  - exists Sample.registry, Sample.now, Sample.hashed.
    exists (entryOf Sample.registry Sample.now Sample.hashed None).
    split; [now rewrite createFunction_eq|].
    cbn [StorageEntry.method entryOf]. split.
    + discriminate.
    + vm_compute. discriminate.
Qed.

End Claims.

(** ** The claims on the sample chain *)

#[local] Existing Instance Sample.hashers.

Lemma create_now (options : CreateItemOptions) :
  createFunction Sample.registry Sample.now options = Ok (Sample.nowEntry options).
Proof. now rewrite createFunction_eq. Qed.

Lemma create_account :
  createFunction Sample.registry Sample.account Sample.hashed = Ok Sample.accountEntry.
Proof. now rewrite createFunction_eq. Qed.

Lemma create_erasStakers (options : CreateItemOptions) :
  createFunction Sample.registry Sample.erasStakers options
  = Ok (Sample.erasStakersEntry options).
Proof. now rewrite createFunction_eq. Qed.

(** C1: the item [System.Account] of section [system] has the base prefix of
    [System] and [Account], not the one of [system] and [Account]. *)
Lemma C1_section_counterexample : ~ prefix_hashes_section Sample.account.
Proof.
  unfold prefix_hashes_section. vm_compute. discriminate.
Qed.

Lemma C2_map_key_witness :
  type (meta Sample.account)
  = Map {| AsMap.hasher := Twox64Concat; AsMap.key := "u32";
           AsMap.value := "u32" |}
  /\ isNullish (JsNumber 7) = false
  /\ createTypeU8a Sample.registry "u32" (JsNumber 7) = Ok (le_bytes 4 7)
  /\ createFunction Sample.registry Sample.account Sample.hashed
     = Ok Sample.accountEntry
  /\ StorageEntry.call Sample.accountEntry (JsNumber 7)
     = Ok (compactAddLength
             (createPrefixedKey Sample.account
              ++ getHasher (Some Twox64Concat) (le_bytes 4 7))).
Proof.
  assert (E : createFunction Sample.registry Sample.account Sample.hashed
              = Ok Sample.accountEntry) by reflexivity.
  refine (conj eq_refl (conj eq_refl (conj eq_refl (conj E _)))).
  exact (proj2 (C2_map_key Sample.registry Sample.account _ (JsNumber 7)
                  (le_bytes 4 7) eq_refl eq_refl eq_refl)
           Sample.hashed Sample.accountEntry eq_refl E).
Defined.

(** C3: the Plain item [Timestamp.Now], called with the argument 7, returns
    a key. *)
Lemma C3_plain_counterexample :
  ~ call_fails Sample.registry Sample.now Sample.hashed (JsNumber 7).
Proof.
  intros Hc. destruct (Hc _ (create_now _)) as [msg E].
  vm_compute in E. discriminate E.
Qed.

Lemma C3_arity_witness :
  (isNullish JsNull = true
   /\ StorageEntry.call Sample.accountEntry JsNull
      = Err "Account is a Map and requires one argument")
  /\ ((suppliedKeys (JsArray [JsNumber 7]) < 2)%nat
      /\ StorageEntry.call (Sample.erasStakersEntry Sample.hashed) (JsArray [JsNumber 7])
         = Err "ErasStakers is a DoubleMap and requires two arguments").
Proof.
  split; split.
  - reflexivity.
  - assert (E : createFunction Sample.registry Sample.account Sample.hashed
                = Ok Sample.accountEntry) by reflexivity.
    exact (proj2 (proj1 (C3_arity _ _ _ _ JsNull E) _ eq_refl eq_refl) eq_refl).
  - vm_compute. apply le_n.
  - assert (E : createFunction Sample.registry Sample.erasStakers Sample.hashed
                = Ok (Sample.erasStakersEntry Sample.hashed)) by reflexivity.
    assert (L : (suppliedKeys (JsArray [JsNumber 7]) < 2)%nat)
      by (vm_compute; apply le_n).
    exact (proj1 (proj2 (C3_arity _ _ _ _ (JsArray [JsNumber 7]) E))
             _ eq_refl L).
Defined.

(** C4: the DoubleMap item [Staking.ErasStakers], created with a raw key and
    [skipHashing], still returns the hashed key of the pair. *)
Lemma C4_double_map_counterexample :
  ~ call_returns_raw_key Sample.registry Sample.erasStakers Sample.rawKey
      (Sample.pair 7 9).
Proof.
  intros Hc. specialize (Hc eq_refl _ (create_erasStakers _)).
  vm_compute in Hc. discriminate Hc.
Qed.

Lemma C4_raw_key_witness :
  StorageEntry.call (Sample.nowEntry Sample.rawKey) (JsNumber 7)
  = Ok (compactAddLength (u8aToU8a (Some "0x3a636f6465")))
  /\ StorageEntry.call (Sample.erasStakersEntry Sample.rawKey) (Sample.pair 7 9)
     = createKeyDoubleMap Sample.registry Sample.erasStakers (Sample.pair 7 9)
         (getHashers Sample.erasStakers).
Proof.
  split.
  - assert (E : createFunction Sample.registry Sample.now Sample.rawKey
                = Ok (Sample.nowEntry Sample.rawKey)) by reflexivity.
    exact (proj1 (C4_raw_key _ _ _ _ (JsNumber 7) E) eq_refl eq_refl).
  - assert (E : createFunction Sample.registry Sample.erasStakers Sample.rawKey
                = Ok (Sample.erasStakersEntry Sample.rawKey)) by reflexivity.
    exact (proj2 (C4_raw_key _ _ _ _ (Sample.pair 7 9) E) eq_refl).
Defined.

(** C5: the full key of the pair (7, 9) begins with its length byte, not
    with the bytes of the iteration prefix of 7. *)
Lemma C5_full_key_counterexample :
  ~ iterKey_prefix_of_call Sample.registry Sample.erasStakers Sample.hashed
      (JsNumber 7) (JsNumber 9).
Proof.
  intros Hc.
  assert (Hp : isPrefixOf (sk_u8a Sample.firstKey7) Sample.fullKey79).
  { apply (Hc (Sample.erasStakersEntry Sample.hashed) _ _ _
             (create_erasStakers _) eq_refl); reflexivity. }
  apply startsWith_spec in Hp. vm_compute in Hp. discriminate Hp.
Qed.

Lemma C5_narrowing_witness :
  exists body,
    Sample.fullKey79 = compactAddLength body
    /\ isPrefixOf (sk_u8a Sample.firstKey7) body
    /\ (Z.of_nat (List.length body) <= MAX_U32 ->
        snd (compactStripLength Sample.fullKey79) = body).
Proof.
  assert (E : createFunction Sample.registry Sample.erasStakers Sample.hashed
              = Ok (Sample.erasStakersEntry Sample.hashed)) by reflexivity.
  exact (C5_narrowing Sample.registry Sample.erasStakers Sample.hashed _
           (Sample.erasStakersEntry Sample.hashed) _ (JsNumber 7) (JsNumber 9)
           Sample.firstKey7 Sample.fullKey79 eq_refl E eq_refl eq_refl eq_refl).
Defined.

(** C6: [iterKey] of the first key 7 is not the length-prefixed body. *)
Lemma C6_length_prefix_counterexample :
  ~ iterKey_length_prefixed Sample.registry Sample.erasStakers Sample.hashed
      (JsNumber 7).
Proof.
  intros Hc.
  destruct (Hc (Sample.erasStakersEntry Sample.hashed) _ _ (le_bytes 4 7) Sample.firstKey7
              (PrefixKey Sample.firstKey7) (create_erasStakers _) eq_refl eq_refl
              eq_refl eq_refl eq_refl) as [E _].
  vm_compute in E. discriminate E.
Qed.

Lemma C6_iterKey_first_key_witness :
  exists iterKey k,
    StorageEntry.iterKey (Sample.erasStakersEntry Sample.hashed) = Some iterKey
    /\ iterKey (JsNumber 7) = Ok k
    /\ sk_u8a k = sk_u8a Sample.firstKey7
    /\ sk_u8a k <> compactAddLength (sk_u8a Sample.firstKey7)
    /\ StorageEntry.keyPrefix (Sample.erasStakersEntry Sample.hashed) (JsNumber 7)
       = Ok (PrefixKey k).
Proof.
  assert (E : createFunction Sample.registry Sample.erasStakers Sample.hashed
              = Ok (Sample.erasStakersEntry Sample.hashed)) by reflexivity.
  exact (C6_iterKey_first_key Sample.registry Sample.erasStakers Sample.hashed
           _ (Sample.erasStakersEntry Sample.hashed) (JsNumber 7) (le_bytes 4 7)
           eq_refl E eq_refl eq_refl).
Defined.

Lemma C7_map_filter_key_witness :
  isNullish (JsNumber 7) = false
  /\ exists iterKey,
       StorageEntry.iterKey Sample.accountEntry = Some iterKey
       /\ iterKey (JsNumber 7)
          = Err "Filtering arguments for keys/entries are only valid on double maps"
       /\ StorageEntry.keyPrefix Sample.accountEntry (JsNumber 7)
          = Err "Filtering arguments for keys/entries are only valid on double maps".
Proof.
  assert (E : createFunction Sample.registry Sample.account Sample.hashed
              = Ok Sample.accountEntry) by reflexivity.
  split; [reflexivity|].
  exact (C7_map_filter_key Sample.registry Sample.account Sample.hashed _
           Sample.accountEntry (JsNumber 7) eq_refl E eq_refl).
Defined.

(** C8: the Plain item [Timestamp.Now], created with a raw key and
    [skipHashing], returns the raw key and not the base prefix. *)
Lemma C8_raw_key_counterexample :
  ~ call_returns_base_prefix Sample.registry Sample.now Sample.rawKey
      (JsNumber 7).
Proof.
  intros Hc. specialize (Hc _ (create_now _)).
  vm_compute in Hc. discriminate Hc.
Qed.

Lemma C8_plain_ignores_argument_witness :
  StorageEntry.call (Sample.nowEntry Sample.hashed) (JsNumber 7)
  = StorageEntry.call (Sample.nowEntry Sample.hashed) JsUndefined
  /\ StorageEntry.call (Sample.nowEntry Sample.hashed) (JsNumber 7)
     = Ok (compactAddLength (createPrefixedKey Sample.now)).
Proof.
  assert (E : createFunction Sample.registry Sample.now Sample.hashed
              = Ok (Sample.nowEntry Sample.hashed)) by reflexivity.
  exact (C8_plain_ignores_argument Sample.registry Sample.now Sample.hashed _
           (Sample.nowEntry Sample.hashed) (JsNumber 7) eq_refl E).
Defined.

Lemma C9_iterKey_no_filter_witness :
  exists iterKey prefixKey,
    StorageEntry.iterKey Sample.accountEntry = Some iterKey
    /\ sk_u8a prefixKey = createPrefixedKey Sample.account
    /\ forall arg, isNullish arg = true -> iterKey arg = Ok prefixKey.
Proof.
  assert (E : createFunction Sample.registry Sample.account Sample.hashed
              = Ok Sample.accountEntry) by reflexivity.
  exact (C9_iterKey_no_filter Sample.registry Sample.account Sample.hashed
           Sample.accountEntry eq_refl E).
Defined.

Lemma C10_method_field_witness :
  StorageEntry.method Sample.accountEntry = "account"
  /\ createPrefixedKey Sample.account
     = xxhashAsU8a "System" 128 ++ xxhashAsU8a "Account" 128.
Proof.
  assert (E : createFunction Sample.registry Sample.account Sample.hashed
              = Ok Sample.accountEntry) by reflexivity.
  exact (proj1 C10_method_field Sample.registry Sample.account Sample.hashed
           Sample.accountEntry E).
Defined.

(** ** Further properties of the entries *)

Section Further.

Context `{Hashers}.

(** The call of a DoubleMap item is [createKeyDoubleMap], whatever the
    options. *)
Lemma storageFn_doubleMap (registry : Registry) (itemFn : CreateItemFn)
    (options : CreateItemOptions) (asDoubleMap : AsDoubleMap.t)
    (arg : JsValue) :
  type (meta itemFn) = DoubleMap asDoubleMap ->
  storageFn registry itemFn options arg
  = createKeyDoubleMap registry itemFn arg (getHashers itemFn).
Proof.
  intros Et. unfold storageFn.
  destruct (getHashers itemFn) as [hasher key2Hasher].
  now rewrite Et.
Qed.

(** [createKeyDoubleMap] on an array whose first two elements are keys. *)
Lemma createKeyDoubleMap_pair (registry : Registry) (itemFn : CreateItemFn)
    (asDoubleMap : AsDoubleMap.t) (key1 key2 : JsValue)
    (rest : list JsValue) :
  type (meta itemFn) = DoubleMap asDoubleMap ->
  isNullish key1 = false ->
  isNullish key2 = false ->
  createKeyDoubleMap registry itemFn (JsArray (key1 :: key2 :: rest))
    (getHashers itemFn)
  = (val1 <- createTypeU8a registry (AsDoubleMap.key1 asDoubleMap) key1 ;;
     val2 <- createTypeU8a registry (AsDoubleMap.key2 asDoubleMap) key2 ;;
     Ok (compactAddLength
           (createPrefixedKey itemFn
            ++ getHasher (Some (AsDoubleMap.hasher asDoubleMap)) val1
            ++ getHasher (Some (AsDoubleMap.key2Hasher asDoubleMap)) val2))).
Proof.
  intros Et H1 H2. unfold isNullish in H1, H2.
  apply orb_false_iff in H1 as [Hu1 Hn1].
  apply orb_false_iff in H2 as [Hu2 Hn2].
  unfold createKeyDoubleMap, getHashers. rewrite Et.
  cbn [isArray index nth andb]. rewrite Hu1, Hn1, Hu2, Hn2.
  cbn [negb andb assert bind].
  destruct (createTypeU8a registry (AsDoubleMap.key1 asDoubleMap) key1);
    cbn [bind]; [|reflexivity].
  destruct (createTypeU8a registry (AsDoubleMap.key2 asDoubleMap) key2);
    cbn [bind]; [|reflexivity].
  unfold u8aConcat. cbn [List.concat]. now rewrite app_nil_r.
Qed.

(** A key that [createKeyDoubleMap] returns is the length-prefixed body of
    two keys. *)
Lemma createKeyDoubleMap_Ok (registry : Registry) (itemFn : CreateItemFn)
    (hashers : HasherFunction * option HasherFunction) (args : JsValue)
    (full : U8a) :
  createKeyDoubleMap registry itemFn args hashers = Ok full ->
  exists val1 val2 hasher2,
    snd hashers = Some hasher2
    /\ full = compactAddLength
                (createPrefixedKey itemFn
                 ++ fst hashers val1 ++ hasher2 val2).
Proof.
  unfold createKeyDoubleMap. destruct hashers as [hasher1 hasher2].
  destruct (assert _ _); cbn [bind]; [|discriminate].
  destruct hasher2 as [hasher2|]; [|discriminate].
  destruct (type (meta itemFn)) as [t|m|d]; try discriminate.
  destruct (createTypeU8a registry (AsDoubleMap.key1 d) _) as [val1|];
    cbn [bind]; [|discriminate].
  destruct (createTypeU8a registry (AsDoubleMap.key2 d) _) as [val2|];
    cbn [bind]; [|discriminate].
  intros E. apply Ok_inj in E. subst full.
  exists val1, val2, hasher2. split; [reflexivity|].
  unfold u8aConcat. cbn [List.concat fst]. now rewrite app_nil_r.
Qed.

(** A key that [createKey] returns is the length-prefixed base prefix,
    followed by something. *)
Lemma createKey_Ok (registry : Registry) (itemFn : CreateItemFn)
    (arg : JsValue) (hasher : HasherFunction) (full : U8a) :
  createKey registry itemFn arg hasher = Ok full ->
  exists tail, full = compactAddLength (createPrefixedKey itemFn ++ tail).
Proof.
  unfold createKey.
  destruct (match type (meta itemFn) with Map _ => _ | _ => _ end)
    as [param|]; cbn [bind]; [|discriminate].
  intros E. apply Ok_inj in E. subst full.
  eexists. unfold u8aConcat. cbn [List.concat]. now rewrite app_nil_r.
Qed.

(** What [compactStripLength] gives for a key below [2 ^ 30] bytes: the
    length of the whole key and the body. *)
Lemma compactStripLength_full (body : U8a) :
  Z.of_nat (List.length body) <= MAX_U32 ->
  compactStripLength (compactAddLength body)
  = (Z.of_nat (List.length (compactAddLength body)), body).
Proof.
  intros Hb. rewrite compactAddLength_app. unfold compactStripLength.
  rewrite compactFromU8a_compactToU8a by lia.
  rewrite subarray_after, length_app. f_equal. lia.
Qed.

(** The header of a 32-byte body is the byte [0x80]. *)
Lemma compactAddLength_base_prefix (itemFn : CreateItemFn) :
  compactAddLength (createPrefixedKey itemFn)
  = x80 :: createPrefixedKey itemFn.
Proof.
  rewrite compactAddLength_app, length_createPrefixedKey. reflexivity.
Qed.

(** X1: [createFunction] throws only what the registry throws. For a Plain
    item it always returns an entry, without [iterKey]; for a Map or a
    DoubleMap item it returns an entry with [iterKey] when the registry gives
    the zero value of the key type (first key type), and throws the
    registry's error otherwise. *)
Theorem X1_createFunction_outcome (registry : Registry)
    (itemFn : CreateItemFn) (options : CreateItemOptions) :
  (isPlain (type (meta itemFn)) = true ->
   exists entry,
     createFunction registry itemFn options = Ok entry
     /\ StorageEntry.iterKey entry = None)
  /\ (isPlain (type (meta itemFn)) = false ->
      forall msg,
        createTypeHex registry (outputTypeOf (type (meta itemFn))) = Err msg ->
        createFunction registry itemFn options = Err msg)
  /\ (isPlain (type (meta itemFn)) = false ->
      forall fallback,
        createTypeHex registry (outputTypeOf (type (meta itemFn)))
        = Ok fallback ->
        exists entry iterKey,
          createFunction registry itemFn options = Ok entry
          /\ StorageEntry.iterKey entry = Some iterKey).
Proof.
  rewrite createFunction_eq. repeat split.
  - intros ->. eexists. split; reflexivity.
  - intros -> msg ->. reflexivity.
  - intros -> fallback ->. cbn [bind]. eexists. eexists.
    split; reflexivity.
Qed.

(** X2: for a DoubleMap item and an array whose first two elements are
    neither [null] nor [undefined] and encode to [val1] and [val2], the call
    returns the length-prefixed
    [basePrefix ++ hasher(val1) ++ key2Hasher(val2)], with the two hashers
    the item declares; further elements of the array and the options change
    nothing. *)
Theorem X2_double_map_key (registry : Registry) (itemFn : CreateItemFn)
    (options : CreateItemOptions) (asDoubleMap : AsDoubleMap.t)
    (entry : StorageEntry.t) (key1 key2 : JsValue) (val1 val2 : U8a)
    (rest : list JsValue) :
  type (meta itemFn) = DoubleMap asDoubleMap ->
  createFunction registry itemFn options = Ok entry ->
  isNullish key1 = false ->
  isNullish key2 = false ->
  createTypeU8a registry (AsDoubleMap.key1 asDoubleMap) key1 = Ok val1 ->
  createTypeU8a registry (AsDoubleMap.key2 asDoubleMap) key2 = Ok val2 ->
  StorageEntry.call entry (JsArray (key1 :: key2 :: rest))
  = Ok (compactAddLength
          (createPrefixedKey itemFn
           ++ getHasher (Some (AsDoubleMap.hasher asDoubleMap)) val1
           ++ getHasher (Some (AsDoubleMap.key2Hasher asDoubleMap)) val2)).
Proof.
  intros Et Hentry H1 H2 Hv1 Hv2.
  rewrite (createFunction_call _ _ _ _ Hentry).
  rewrite (storageFn_doubleMap _ _ _ asDoubleMap) by assumption.
  rewrite (createKeyDoubleMap_pair _ _ asDoubleMap) by assumption.
  now rewrite Hv1, Hv2.
Qed.

(** X3: an error of the registry while it encodes a key is the error of the
    call, message unchanged: for the argument of a Map item (created without
    [skipHashing]), for the first key of a DoubleMap item, and for its second
    key once the first is encoded. *)
Theorem X3_encoding_errors (registry : Registry) (itemFn : CreateItemFn)
    (options : CreateItemOptions) (entry : StorageEntry.t) (msg : string) :
  createFunction registry itemFn options = Ok entry ->
  (forall asMap arg,
     type (meta itemFn) = Map asMap ->
     truthy (skipHashing options) = false ->
     isNullish arg = false ->
     createTypeU8a registry (AsMap.key asMap) arg = Err msg ->
     StorageEntry.call entry arg = Err msg)
  /\ (forall asDoubleMap key1 key2 rest,
        type (meta itemFn) = DoubleMap asDoubleMap ->
        isNullish key1 = false ->
        isNullish key2 = false ->
        (createTypeU8a registry (AsDoubleMap.key1 asDoubleMap) key1 = Err msg ->
         StorageEntry.call entry (JsArray (key1 :: key2 :: rest)) = Err msg)
        /\ (forall val1,
              createTypeU8a registry (AsDoubleMap.key1 asDoubleMap) key1
              = Ok val1 ->
              createTypeU8a registry (AsDoubleMap.key2 asDoubleMap) key2
              = Err msg ->
              StorageEntry.call entry (JsArray (key1 :: key2 :: rest))
              = Err msg)).
Proof.
  intros Hentry. rewrite (createFunction_call _ _ _ _ Hentry). split.
  - intros asMap arg Et Hskip Harg Hv.
    unfold storageFn, getHashers, createKey. rewrite Et. cbn [isDoubleMap].
    rewrite Hskip. unfold isNullish in Harg.
    apply orb_false_iff in Harg as [-> ->].
    cbn [negb andb assert bind]. now rewrite Hv.
  - intros asDoubleMap key1 key2 rest Et H1 H2.
    rewrite (storageFn_doubleMap _ _ _ asDoubleMap) by assumption.
    rewrite (createKeyDoubleMap_pair _ _ asDoubleMap) by assumption.
    split.
    + intros ->. reflexivity.
    + intros val1 -> ->. reflexivity.
Qed.

(** A key that the callable returns is a length-prefixed body, which
    begins with the base prefix unless the raw key was taken. *)
Lemma storageFn_Ok (registry : Registry) (itemFn : CreateItemFn)
    (options : CreateItemOptions) (arg : JsValue) (full : U8a) :
  storageFn registry itemFn options arg = Ok full ->
  exists body,
    full = compactAddLength body
    /\ (isDoubleMap (type (meta itemFn))
        || negb (truthy (skipHashing options)) = true ->
        isPrefixOf (createPrefixedKey itemFn) body).
Proof.
  unfold storageFn. destruct (getHashers itemFn) as [hasher key2Hasher].
  destruct (isDoubleMap (type (meta itemFn))).
  - intros Hfull.
    destruct (createKeyDoubleMap_Ok _ _ _ _ _ Hfull)
      as [val1 [val2 [hasher2 [_ ->]]]].
    eexists. split; [reflexivity|]. intros _. apply isPrefixOf_app.
  - destruct (truthy (skipHashing options)).
    + intros Hfull. apply Ok_inj in Hfull. subst full.
      eexists. split; [reflexivity|]. discriminate.
    + intros Hfull. destruct (createKey_Ok _ _ _ _ _ Hfull) as [tail ->].
      eexists. split; [reflexivity|]. intros _. apply isPrefixOf_app.
Qed.


(** X4: every key that the call of an entry returns is
    [compactAddLength(body)] for some body. The body begins with the base
    prefix for a DoubleMap item and for any entry created without
    [skipHashing]; and below [2 ^ 30] bytes [compactStripLength] reads back
    the length of the whole key and the body. *)
Theorem X4_key_is_length_prefixed (registry : Registry)
    (itemFn : CreateItemFn) (options : CreateItemOptions)
    (entry : StorageEntry.t) (arg : JsValue) (full : U8a) :
  createFunction registry itemFn options = Ok entry ->
  StorageEntry.call entry arg = Ok full ->
  exists body,
    full = compactAddLength body
    /\ (isDoubleMap (type (meta itemFn))
        || negb (truthy (skipHashing options)) = true ->
        isPrefixOf (createPrefixedKey itemFn) body)
    /\ (Z.of_nat (List.length body) <= MAX_U32 ->
        compactStripLength full = (Z.of_nat (List.length full), body)).
Proof.
  intros Hentry. rewrite (createFunction_call _ _ _ _ Hentry). intros Hfull.
  destruct (storageFn_Ok _ _ _ _ _ Hfull) as [body [-> Hprefix]].
  exists body. split; [reflexivity|]. split; [exact Hprefix|].
  apply compactStripLength_full.
Qed.

(** X5: for a DoubleMap item, and for a Map item created without
    [skipHashing], the key that [iterKey] returns without filter ([null],
    [undefined] or nothing) is a byte-prefix of the body of every key that
    the call returns. *)
Theorem X5_prefix_stability (registry : Registry) (itemFn : CreateItemFn)
    (options : CreateItemOptions) (entry : StorageEntry.t)
    (iterKey : JsValue -> result StorageKey) (filter arg : JsValue)
    (prefixKey : StorageKey) (full : U8a) :
  isDoubleMap (type (meta itemFn))
  || isMap (type (meta itemFn)) && negb (truthy (skipHashing options)) = true ->
  createFunction registry itemFn options = Ok entry ->
  StorageEntry.iterKey entry = Some iterKey ->
  isNullish filter = true ->
  iterKey filter = Ok prefixKey ->
  StorageEntry.call entry arg = Ok full ->
  exists body,
    full = compactAddLength body /\ isPrefixOf (sk_u8a prefixKey) body.
Proof.
  intros Hshape Hentry Hiter Hfilter Hkey Hfull.
  destruct (createFunction_Ok _ _ _ _ Hentry)
    as [[Hp _]|[_ [fb [_ ->]]]].
  - destruct (type (meta itemFn)); discriminate.
  - cbn [StorageEntry.iterKey StorageEntry.call entryOf] in Hiter, Hfull.
    injection Hiter as <-.
    assert (Hpk : sk_u8a prefixKey = createPrefixedKey itemFn).
    { unfold iterKeyOf, isNullish in *.
      destruct (isUndefined filter), (isNull filter); try discriminate;
        cbn [negb andb] in Hkey; apply Ok_inj in Hkey; now subst prefixKey. }
    destruct (storageFn_Ok _ _ _ _ _ Hfull) as [body [-> Hprefix]].
    exists body. split; [reflexivity|]. rewrite Hpk. apply Hprefix.
    destruct (isDoubleMap (type (meta itemFn))); [reflexivity|].
    cbn [orb] in Hshape |- *. now apply andb_true_iff in Hshape as [_ ->].
Qed.

(** X6: [keyPrefix] of a Plain item ignores its argument and returns the
    body of the key without the length: the base prefix, or the raw key for
    an entry created with [skipHashing] (a raw key below [2 ^ 30] bytes). *)
Theorem X6_plain_keyPrefix (registry : Registry) (itemFn : CreateItemFn)
    (options : CreateItemOptions) (value : string) (entry : StorageEntry.t)
    (arg : JsValue) :
  type (meta itemFn) = Plain value ->
  createFunction registry itemFn options = Ok entry ->
  (truthy (skipHashing options) = true ->
   Z.of_nat (List.length (u8aToU8a (key options))) <= MAX_U32) ->
  StorageEntry.keyPrefix entry arg
  = Ok (PrefixU8a (if truthy (skipHashing options)
                   then u8aToU8a (key options)
                   else createPrefixedKey itemFn)).
Proof.
  intros Et Hentry Hraw.
  destruct (createFunction_Ok _ _ _ _ Hentry)
    as [[_ ->]|[Hp _]]; [|rewrite Et in Hp; discriminate].
  cbn [StorageEntry.keyPrefix entryOf].
  rewrite (storageFn_plain _ _ _ value) by assumption. cbn [bind].
  rewrite compactStripLength_compactAddLength; [reflexivity|].
  destruct (truthy (skipHashing options)).
  - now apply Hraw.
  - rewrite length_createPrefixedKey. unfold MAX_U32. cbn. lia.
Qed.

(** X7: the key of a Plain item created without [skipHashing] is 33 bytes
    long: the byte [0x80], which is the compact length 32, and the base
    prefix. *)
Theorem X7_plain_key_bytes (registry : Registry) (itemFn : CreateItemFn)
    (options : CreateItemOptions) (value : string) (entry : StorageEntry.t)
    (arg : JsValue) :
  type (meta itemFn) = Plain value ->
  truthy (skipHashing options) = false ->
  createFunction registry itemFn options = Ok entry ->
  StorageEntry.call entry arg = Ok (x80 :: createPrefixedKey itemFn)
  /\ List.length (x80 :: createPrefixedKey itemFn) = 33%nat.
Proof.
  intros Et Hskip Hentry. rewrite (createFunction_call _ _ _ _ Hentry).
  rewrite (storageFn_plain _ _ _ value) by assumption. rewrite Hskip.
  rewrite compactAddLength_base_prefix. split; [reflexivity|].
  cbn [List.length]. now rewrite length_createPrefixedKey.
Qed.

(** X8: for a Map or a DoubleMap item [keyPrefix] is [iterKey]: it returns
    the key that [iterKey] returns for the same argument and throws what
    [iterKey] throws; the call of the entry is not used. *)
Theorem X8_keyPrefix_is_iterKey (registry : Registry) (itemFn : CreateItemFn)
    (options : CreateItemOptions) (entry : StorageEntry.t) :
  isMap (type (meta itemFn)) || isDoubleMap (type (meta itemFn)) = true ->
  createFunction registry itemFn options = Ok entry ->
  exists iterKey,
    StorageEntry.iterKey entry = Some iterKey
    /\ forall arg,
         StorageEntry.keyPrefix entry arg
         = match iterKey arg with
           | Ok k => Ok (PrefixKey k)
           | Err msg => Err msg
           end.
Proof.
  intros Hshape Hentry.
  destruct (createFunction_Ok _ _ _ _ Hentry)
    as [[Hp _]|[_ [fb [_ ->]]]].
  - destruct (type (meta itemFn)); discriminate.
  - cbn [StorageEntry.iterKey StorageEntry.keyPrefix entryOf].
    eexists. split; [reflexivity|]. intros arg. reflexivity.
Qed.

(** X9: for a DoubleMap item, an error of the registry while it encodes the
    first key is the error of [iterKey] and of [keyPrefix], message
    unchanged. *)
Theorem X9_iterKey_encoding_error (registry : Registry)
    (itemFn : CreateItemFn) (options : CreateItemOptions)
    (asDoubleMap : AsDoubleMap.t) (entry : StorageEntry.t) (key1 : JsValue)
    (msg : string) :
  type (meta itemFn) = DoubleMap asDoubleMap ->
  createFunction registry itemFn options = Ok entry ->
  isNullish key1 = false ->
  createTypeU8a registry (AsDoubleMap.key1 asDoubleMap) key1 = Err msg ->
  exists iterKey,
    StorageEntry.iterKey entry = Some iterKey
    /\ iterKey key1 = Err msg
    /\ StorageEntry.keyPrefix entry key1 = Err msg.
Proof.
  intros Et Hentry Hk Hv.
  destruct (createFunction_Ok _ _ _ _ Hentry)
    as [[Hp _]|[_ [fb [_ ->]]]]; [rewrite Et in Hp; discriminate|].
  cbn [StorageEntry.iterKey StorageEntry.keyPrefix entryOf].
  eexists. split; [reflexivity|].
  unfold isNullish in Hk. apply orb_false_iff in Hk as [Hu Hn].
  assert (Hf : iterKeyOf registry itemFn
                 (prefixKeyOf itemFn (outputTypeOf (type (meta itemFn))) fb)
                 key1 = Err msg).
  { unfold iterKeyOf, iterFn. rewrite Et, Hu, Hn.
    cbn [negb andb isDoubleMap orb assert bind]. now rewrite Hv. }
  rewrite Hf. split; reflexivity.
Qed.

(** X10: a created entry carries the item's [meta], [prefix] and [section]
    unchanged, and its [toJSON] lists the method name as the item has it,
    not in the lower-cased form of the [method] field. *)
Theorem X10_identity_fields (registry : Registry) (itemFn : CreateItemFn)
    (options : CreateItemOptions) (entry : StorageEntry.t) :
  createFunction registry itemFn options = Ok entry ->
  StorageEntry.meta entry = meta itemFn
  /\ StorageEntry.prefix entry = prefix itemFn
  /\ StorageEntry.section entry = section itemFn
  /\ StorageEntry.toJSON entry
     = (meta itemFn, (method itemFn, prefix itemFn, section itemFn)).
Proof.
  intros Hentry.
  destruct (createFunction_Ok _ _ _ _ Hentry)
    as [[_ ->]|[_ [fb [_ ->]]]]; repeat split; reflexivity.
Qed.

(** X11: a Plain or a Map entry created with [skipHashing] but without a
    key, or with the empty string for key, returns the single byte 0, the
    length prefix of no bytes, whatever the argument. *)
Theorem X11_skipHashing_without_key (registry : Registry)
    (itemFn : CreateItemFn) (options : CreateItemOptions)
    (entry : StorageEntry.t) (arg : JsValue) :
  isDoubleMap (type (meta itemFn)) = false ->
  truthy (skipHashing options) = true ->
  key options = None \/ key options = Some "" ->
  createFunction registry itemFn options = Ok entry ->
  StorageEntry.call entry arg = Ok [x00].
Proof.
  intros Hd Hskip Hkey Hentry. rewrite (createFunction_call _ _ _ _ Hentry).
  unfold storageFn. destruct (getHashers itemFn) as [hasher key2Hasher].
  rewrite Hd, Hskip. destruct Hkey as [-> | ->]; reflexivity.
Qed.


(** X13: the base prefixes of two items with the same [prefix], the items
    of one module, agree on their first 16 bytes. *)
Theorem X13_module_prefix_shared (itemFn1 itemFn2 : CreateItemFn) :
  prefix itemFn1 = prefix itemFn2 ->
  firstn 16 (createPrefixedKey itemFn1) = firstn 16 (createPrefixedKey itemFn2)
  /\ firstn 16 (createPrefixedKey itemFn1) = xxhashAsU8a (prefix itemFn1) 128.
Proof.
  intros Hp. rewrite !createPrefixedKey_app, Hp.
  assert (Hf : forall method,
    firstn 16 (xxhashAsU8a (prefix itemFn2) 128 ++ xxhashAsU8a method 128)
    = xxhashAsU8a (prefix itemFn2) 128).
  { intros method.
    rewrite firstn_app, length_xxhashAsU8a_128, Nat.sub_diag, firstn_O.
    rewrite app_nil_r. apply firstn_all2.
    now rewrite length_xxhashAsU8a_128. }
  now rewrite !Hf.
Qed.

(** X14: [createKeyDoubleMap] checks its arguments before its hashers and
    its hashers before anything is encoded: with fewer than two keys it
    fails with the arity error even when the second hasher is missing, and
    with two keys but no second hasher it fails with the configuration
    error, whatever the registry would make of the keys. *)
Theorem X14_double_map_check_order (registry : Registry)
    (itemFn : CreateItemFn) (hasher1 : HasherFunction) :
  (forall args hasher2,
     (suppliedKeys args < 2)%nat ->
     createKeyDoubleMap registry itemFn args (hasher1, hasher2)
     = Err (String.append (name (meta itemFn))
              " is a DoubleMap and requires two arguments"))
  /\ (forall key1 key2 rest,
        isNullish key1 = false ->
        isNullish key2 = false ->
        createKeyDoubleMap registry itemFn (JsArray (key1 :: key2 :: rest))
          (hasher1, None)
        = Err "2 hashing functions should be defined for DoubleMaps").
Proof.
  split.
  - intros args hasher2 Hfew. unfold createKeyDoubleMap.
    match goal with
    | |- context [assert ?c _] => replace c with false
    end; [reflexivity|].
    destruct args as [| | | | | |elems]; try reflexivity.
    destruct elems as [|k1 [|k2 rest]].
    + reflexivity.
    + cbn. destruct (isUndefined k1), (isNull k1); reflexivity.
    + cbn in Hfew |- *. unfold isNullish in Hfew.
      destruct (isUndefined k1), (isNull k1); try reflexivity;
        destruct (isUndefined k2), (isNull k2); try reflexivity.
      cbn in Hfew. lia.
  - intros key1 key2 rest H1 H2. unfold isNullish in H1, H2.
    apply orb_false_iff in H1 as [Hu1 Hn1].
    apply orb_false_iff in H2 as [Hu2 Hn2].
    unfold createKeyDoubleMap. cbn [isArray index nth andb].
    now rewrite Hu1, Hn1, Hu2, Hn2.
Qed.

(** X15: without a filter ([null], [undefined] or nothing), [keyPrefix]
    returns the 32 bytes of the base prefix for every shape: through
    [iterKey] for a Map or a DoubleMap item, and by stripping the length of
    the key for a Plain item created without [skipHashing]. *)
Theorem X15_keyPrefix_no_filter (registry : Registry) (itemFn : CreateItemFn)
    (options : CreateItemOptions) (entry : StorageEntry.t) (arg : JsValue) :
  createFunction registry itemFn options = Ok entry ->
  (isPlain (type (meta itemFn)) = true ->
   truthy (skipHashing options) = false) ->
  isNullish arg = true ->
  exists p,
    StorageEntry.keyPrefix entry arg = Ok p
    /\ keyPrefix_u8a p = createPrefixedKey itemFn
    /\ List.length (keyPrefix_u8a p) = 32%nat.
Proof.
  intros Hentry Hskip Harg.
  destruct (createFunction_Ok _ _ _ _ Hentry)
    as [[Hp ->]|[_ [fb [_ ->]]]].
  - cbn [StorageEntry.keyPrefix entryOf].
    destruct (type (meta itemFn)) as [value| |] eqn:Et; try discriminate.
    rewrite (storageFn_plain _ _ _ value) by assumption.
    rewrite (Hskip eq_refl). cbn [bind].
    rewrite compactStripLength_compactAddLength.
    2:{ rewrite length_createPrefixedKey. unfold MAX_U32. cbn. lia. }
    eexists. split; [reflexivity|]. cbn [keyPrefix_u8a].
    split; [reflexivity|]. apply length_createPrefixedKey.
  - cbn [StorageEntry.keyPrefix entryOf].
    assert (Hk : iterKeyOf registry itemFn
                   (prefixKeyOf itemFn (outputTypeOf (type (meta itemFn))) fb)
                   arg
                 = Ok (prefixKeyOf itemFn
                         (outputTypeOf (type (meta itemFn))) fb)).
    { unfold iterKeyOf, isNullish in *.
      destruct (isUndefined arg), (isNull arg); try reflexivity;
        discriminate. }
    rewrite Hk. cbn [bind]. eexists. split; [reflexivity|].
    cbn [keyPrefix_u8a sk_u8a prefixKeyOf]. split; [reflexivity|].
    apply length_createPrefixedKey.
Qed.

End Further.

(** ** The further properties on the sample chain *)

Lemma X1_createFunction_outcome_witness :
  (exists entry,
     createFunction Sample.registry Sample.now Sample.hashed = Ok entry
     /\ StorageEntry.iterKey entry = None)
  /\ createFunction Sample.registry Sample.owners Sample.hashed
     = Err "Unable to create type"
  /\ (exists entry iterKey,
        createFunction Sample.registry Sample.account Sample.hashed = Ok entry
        /\ StorageEntry.iterKey entry = Some iterKey).
Proof.
  split; [|split].
  - exact (proj1 (X1_createFunction_outcome Sample.registry Sample.now
                    Sample.hashed) eq_refl).
  - exact (proj1 (proj2 (X1_createFunction_outcome Sample.registry
                           Sample.owners Sample.hashed))
             eq_refl "Unable to create type" eq_refl).
  - exact (proj2 (proj2 (X1_createFunction_outcome Sample.registry
                           Sample.account Sample.hashed))
             eq_refl (le_bytes 4 0) eq_refl).
Defined.

Lemma X2_double_map_key_witness :
  StorageEntry.call (Sample.erasStakersEntry Sample.rawKey)
    (JsArray [JsNumber 7; JsNumber 9; JsNull])
  = Ok Sample.fullKey79.
Proof.
  assert (E : createFunction Sample.registry Sample.erasStakers Sample.rawKey
              = Ok (Sample.erasStakersEntry Sample.rawKey)) by reflexivity.
  exact (X2_double_map_key Sample.registry Sample.erasStakers Sample.rawKey _
           (Sample.erasStakersEntry Sample.rawKey) (JsNumber 7) (JsNumber 9)
           (le_bytes 4 7) (le_bytes 1 9) [JsNull]
           eq_refl E eq_refl eq_refl eq_refl eq_refl).
Defined.

Lemma X3_encoding_errors_witness :
  StorageEntry.call Sample.accountEntry (JsString "seven")
  = Err "Unable to convert input to a number"
  /\ StorageEntry.call (Sample.erasStakersEntry Sample.hashed)
       (JsArray [JsString "seven"; JsNumber 9])
     = Err "Unable to convert input to a number"
  /\ StorageEntry.call (Sample.erasStakersEntry Sample.hashed)
       (JsArray [JsNumber 7; JsNumber 256])
     = Err "Input too large".
Proof.
  assert (Ea : createFunction Sample.registry Sample.account Sample.hashed
               = Ok Sample.accountEntry) by reflexivity.
  assert (Ee : createFunction Sample.registry Sample.erasStakers Sample.hashed
               = Ok (Sample.erasStakersEntry Sample.hashed)) by reflexivity.
  split; [|split].
  - exact (proj1 (X3_encoding_errors Sample.registry Sample.account
                    Sample.hashed Sample.accountEntry _ Ea)
             _ (JsString "seven") eq_refl eq_refl eq_refl eq_refl).
  - exact (proj1 (proj2 (X3_encoding_errors Sample.registry Sample.erasStakers
                           Sample.hashed (Sample.erasStakersEntry Sample.hashed)
                           _ Ee)
                    _ (JsString "seven") (JsNumber 9) [] eq_refl eq_refl eq_refl)
             eq_refl).
  - exact (proj2 (proj2 (X3_encoding_errors Sample.registry Sample.erasStakers
                           Sample.hashed (Sample.erasStakersEntry Sample.hashed)
                           _ Ee)
                    _ (JsNumber 7) (JsNumber 256) [] eq_refl eq_refl eq_refl)
             (le_bytes 4 7) eq_refl eq_refl).
Defined.

Lemma X4_key_is_length_prefixed_witness :
  exists body,
    Sample.fullKey79 = compactAddLength body
    /\ (isDoubleMap (type (meta Sample.erasStakers))
        || negb (truthy (skipHashing Sample.rawKey)) = true ->
        isPrefixOf (createPrefixedKey Sample.erasStakers) body)
    /\ (Z.of_nat (List.length body) <= MAX_U32 ->
        compactStripLength Sample.fullKey79
        = (Z.of_nat (List.length Sample.fullKey79), body)).
Proof.
  assert (E : createFunction Sample.registry Sample.erasStakers Sample.rawKey
              = Ok (Sample.erasStakersEntry Sample.rawKey)) by reflexivity.
  exact (X4_key_is_length_prefixed Sample.registry Sample.erasStakers
           Sample.rawKey (Sample.erasStakersEntry Sample.rawKey)
           (Sample.pair 7 9) Sample.fullKey79 E eq_refl).
Defined.

Lemma X5_prefix_stability_witness :
  exists body,
    compactAddLength
      (createPrefixedKey Sample.account
       ++ getHasher (Some Twox64Concat) (le_bytes 4 7))
    = compactAddLength body
    /\ isPrefixOf
         (sk_u8a (prefixKeyOf Sample.account "u32" (le_bytes 4 0))) body.
Proof.
  assert (E : createFunction Sample.registry Sample.account Sample.hashed
              = Ok Sample.accountEntry) by reflexivity.
  exact (X5_prefix_stability Sample.registry Sample.account Sample.hashed
           Sample.accountEntry _ JsNull (JsNumber 7) _ _
           eq_refl E eq_refl eq_refl eq_refl eq_refl).
Defined.

Lemma X6_plain_keyPrefix_witness :
  StorageEntry.keyPrefix (Sample.nowEntry Sample.rawKey) (JsNumber 7)
  = Ok (PrefixU8a (stringToU8a ":code"))
  /\ StorageEntry.keyPrefix (Sample.nowEntry Sample.hashed) (JsNumber 7)
     = Ok (PrefixU8a (createPrefixedKey Sample.now)).
Proof.
  assert (Er : createFunction Sample.registry Sample.now Sample.rawKey
               = Ok (Sample.nowEntry Sample.rawKey)) by reflexivity.
  assert (Eh : createFunction Sample.registry Sample.now Sample.hashed
               = Ok (Sample.nowEntry Sample.hashed)) by reflexivity.
  split.
  - refine (X6_plain_keyPrefix Sample.registry Sample.now Sample.rawKey _
              (Sample.nowEntry Sample.rawKey) (JsNumber 7) eq_refl Er _).
    intros _. vm_compute. discriminate.
  - refine (X6_plain_keyPrefix Sample.registry Sample.now Sample.hashed _
              (Sample.nowEntry Sample.hashed) (JsNumber 7) eq_refl Eh _).
    discriminate.
Defined.

Lemma X7_plain_key_bytes_witness :
  StorageEntry.call (Sample.nowEntry Sample.hashed) (JsNumber 7)
  = Ok (x80 :: createPrefixedKey Sample.now)
  /\ List.length (x80 :: createPrefixedKey Sample.now) = 33%nat.
Proof.
  assert (E : createFunction Sample.registry Sample.now Sample.hashed
              = Ok (Sample.nowEntry Sample.hashed)) by reflexivity.
  exact (X7_plain_key_bytes Sample.registry Sample.now Sample.hashed _
           (Sample.nowEntry Sample.hashed) (JsNumber 7) eq_refl eq_refl E).
Defined.

Lemma X8_keyPrefix_is_iterKey_witness :
  exists iterKey,
    StorageEntry.iterKey (Sample.erasStakersEntry Sample.hashed) = Some iterKey
    /\ forall arg,
         StorageEntry.keyPrefix (Sample.erasStakersEntry Sample.hashed) arg
         = match iterKey arg with
           | Ok k => Ok (PrefixKey k)
           | Err msg => Err msg
           end.
Proof.
  assert (E : createFunction Sample.registry Sample.erasStakers Sample.hashed
              = Ok (Sample.erasStakersEntry Sample.hashed)) by reflexivity.
  exact (X8_keyPrefix_is_iterKey Sample.registry Sample.erasStakers
           Sample.hashed (Sample.erasStakersEntry Sample.hashed) eq_refl E).
Defined.

Lemma X9_iterKey_encoding_error_witness :
  exists iterKey,
    StorageEntry.iterKey (Sample.erasStakersEntry Sample.hashed) = Some iterKey
    /\ iterKey (JsString "seven") = Err "Unable to convert input to a number"
    /\ StorageEntry.keyPrefix (Sample.erasStakersEntry Sample.hashed)
         (JsString "seven")
       = Err "Unable to convert input to a number".
Proof.
  assert (E : createFunction Sample.registry Sample.erasStakers Sample.hashed
              = Ok (Sample.erasStakersEntry Sample.hashed)) by reflexivity.
  exact (X9_iterKey_encoding_error Sample.registry Sample.erasStakers
           Sample.hashed _ (Sample.erasStakersEntry Sample.hashed)
           (JsString "seven") _ eq_refl E eq_refl eq_refl).
Defined.

Lemma X10_identity_fields_witness :
  StorageEntry.meta Sample.accountEntry = meta Sample.account
  /\ StorageEntry.prefix Sample.accountEntry = "System"
  /\ StorageEntry.section Sample.accountEntry = "system"
  /\ StorageEntry.toJSON Sample.accountEntry
     = (meta Sample.account, ("Account", "System", "system")).
Proof.
  assert (E : createFunction Sample.registry Sample.account Sample.hashed
              = Ok Sample.accountEntry) by reflexivity.
  exact (X10_identity_fields Sample.registry Sample.account Sample.hashed
           Sample.accountEntry E).
Defined.

Lemma X11_skipHashing_without_key_witness :
  StorageEntry.call (Sample.nowEntry Sample.noKey) (JsNumber 7) = Ok [x00].
Proof.
  assert (E : createFunction Sample.registry Sample.now Sample.noKey
              = Ok (Sample.nowEntry Sample.noKey)) by reflexivity.
  exact (X11_skipHashing_without_key Sample.registry Sample.now Sample.noKey
           (Sample.nowEntry Sample.noKey) (JsNumber 7) eq_refl eq_refl
           (or_introl eq_refl) E).
Defined.


Lemma X13_module_prefix_shared_witness :
  prefix Sample.account = prefix Sample.owners
  /\ firstn 16 (createPrefixedKey Sample.account)
     = firstn 16 (createPrefixedKey Sample.owners)
  /\ firstn 16 (createPrefixedKey Sample.account) = xxhashAsU8a "System" 128.
Proof.
  split; [reflexivity|].
  exact (X13_module_prefix_shared Sample.account Sample.owners eq_refl).
Defined.

Lemma X14_double_map_check_order_witness :
  createKeyDoubleMap Sample.registry Sample.erasStakers
    (JsArray [JsNumber 7]) (getHasher (Some Twox64Concat), None)
  = Err "ErasStakers is a DoubleMap and requires two arguments"
  /\ createKeyDoubleMap Sample.registry Sample.erasStakers
       (JsArray [JsString "seven"; JsNumber 9])
       (getHasher (Some Twox64Concat), None)
     = Err "2 hashing functions should be defined for DoubleMaps".
Proof.
  assert (L : (suppliedKeys (JsArray [JsNumber 7]) < 2)%nat)
    by (vm_compute; apply le_n).
  split.
  - exact (proj1 (X14_double_map_check_order Sample.registry
                    Sample.erasStakers (getHasher (Some Twox64Concat)))
             (JsArray [JsNumber 7]) None L).
  - exact (proj2 (X14_double_map_check_order Sample.registry
                    Sample.erasStakers (getHasher (Some Twox64Concat)))
             (JsString "seven") (JsNumber 9) [] eq_refl eq_refl).
Defined.

Lemma X15_keyPrefix_no_filter_witness :
  (exists p,
     StorageEntry.keyPrefix (Sample.nowEntry Sample.hashed) JsUndefined = Ok p
     /\ keyPrefix_u8a p = createPrefixedKey Sample.now
     /\ List.length (keyPrefix_u8a p) = 32%nat)
  /\ (exists p,
        StorageEntry.keyPrefix Sample.accountEntry JsNull = Ok p
        /\ keyPrefix_u8a p = createPrefixedKey Sample.account
        /\ List.length (keyPrefix_u8a p) = 32%nat).
Proof.
  assert (En : createFunction Sample.registry Sample.now Sample.hashed
               = Ok (Sample.nowEntry Sample.hashed)) by reflexivity.
  assert (Ea : createFunction Sample.registry Sample.account Sample.hashed
               = Ok Sample.accountEntry) by reflexivity.
  split.
  - exact (X15_keyPrefix_no_filter Sample.registry Sample.now Sample.hashed
             (Sample.nowEntry Sample.hashed) JsUndefined En
             (fun _ => eq_refl) eq_refl).
  - refine (X15_keyPrefix_no_filter Sample.registry Sample.account
              Sample.hashed Sample.accountEntry JsNull Ea _ eq_refl).
    discriminate.
Defined.
